(** * gpsdio-vector-driver: the [Vector] driver of [gpsdio_vector_driver/core.py]

    A shallow embedding of the driver class and of the slice of Python and
    Fiona it relies on, followed by the properties of the field-schema
    resolution done in [Vector.__init__] and of the [write]/[close] protocol.

    Conventions of the embedding:
    - Python values are the constructors of [pyval]; a [dict] is an
      association list in insertion order (the order keyword expansion preserves);
    - an exception is the [Raise] outcome of a computation; the store is kept
      as it was at the raise, as in Python;
    - Fiona is an external library: every call the driver makes to it is
      appended to a log, and an oracle, a parameter of the development,
      decides whether the call raises. *)

From Stdlib Require Import ZArith QArith Ascii String List Bool Lia.
From stdpp Require Import base option list strings gmap.
Import ListNotations.

Local Open Scope string_scope.
Local Open Scope list_scope.
Set Warnings "-register-all".

(** ** Python values *)

Module Py.

(** The values the driver's arguments and the messages' entries range over.
    Floats only pass through the driver, a rational stands for them. *)
Inductive pyval : Type :=
| PyNone
| PyBool (b : bool)
| PyInt (z : Z)
| PyFloat (q : Q)
| PyStr (s : string)
| PyList (l : list pyval)
| PyTuple (l : list pyval)
| PyDict (d : list (pyval * pyval)).

(** The exceptions that occur: the three of Python the constructor can raise
    on its own, and whatever Fiona raises, identified by a message. *)
Inductive exn : Type :=
| TypeError
| ValueError
| AttributeError
| FionaError (what : string).

Inductive result (A : Type) : Type :=
| Ok (a : A)
| Raise (e : exn).
Arguments Ok {A} a.
Arguments Raise {A} e.

(** [isinstance(v, six.string_types)] *)
Definition is_string (v : pyval) : bool :=
  match v with PyStr _ => true | _ => false end.

(** [isinstance(v, (list, tuple))] *)
Definition is_sequence (v : pyval) : bool :=
  match v with PyList _ | PyTuple _ => true | _ => false end.

(** [isinstance(v, (OrderedDict, dict))] *)
Definition is_mapping (v : pyval) : bool :=
  match v with PyDict _ => true | _ => false end.

(** [v is not None] *)
Definition is_not_none (v : pyval) : bool :=
  match v with PyNone => false | _ => true end.

(** [bool(v)], the test of [if v:] *)
Definition truthy (v : pyval) : bool :=
  match v with
  | PyNone => false
  | PyBool b => b
  | PyInt z => negb (Z.eqb z 0)
  | PyFloat q => negb (Qeq_bool q 0)
  | PyStr s => negb (String.eqb s "")
  | PyList l | PyTuple l => match l with [] => false | _ => true end
  | PyDict d => match d with [] => false | _ => true end
  end.

(** [s.split(sep)] for a one-character separator: every occurrence splits,
    empty pieces are kept, and the empty string gives one empty piece. *)
Fixpoint split (sep : ascii) (s : string) : list string :=
  match s with
  | EmptyString => [""]
  | String c s' =>
      if Ascii.eqb c sep then "" :: split sep s'
      else match split sep s' with
           | piece :: rest => String c piece :: rest
           | [] => [String c ""]
           end
  end.

(** [s.split(sep, 1)]: at most one split, at the first occurrence. *)
Fixpoint split1 (sep : ascii) (s : string) : list string :=
  match s with
  | EmptyString => [""]
  | String c s' =>
      if Ascii.eqb c sep then [""; s']
      else match split1 sep s' with
           | piece :: rest => String c piece :: rest
           | [] => [String c ""]
           end
  end.

(** [sep in s] *)
Fixpoint contains (sep : ascii) (s : string) : bool :=
  match s with
  | EmptyString => false
  | String c s' => Ascii.eqb c sep || contains sep s'
  end.

(** [sep.join(l)] for a one-character separator *)
Definition join (sep : ascii) (l : list string) : string :=
  String.concat (String sep "") l.

End Py.
Export Py.

(** ** Ordered dictionaries *)

Module OrderedDict.

(** An [OrderedDict] with string keys: the items in insertion order. *)
Definition t : Type := list (string * pyval).

Definition keys (d : t) : list string := map fst d.

(** [d.get(k)] as an option *)
Fixpoint get (d : t) (k : string) : option pyval :=
  match d with
  | [] => None
  | (k', v) :: d' => if String.eqb k' k then Some v else get d' k
  end.

(** [d[k] = v]: an existing key keeps its place, a new one goes last. *)
Fixpoint setitem (d : t) (k : string) (v : pyval) : t :=
  match d with
  | [] => [(k, v)]
  | (k', v') :: d' =>
      if String.eqb k' k then (k', v) :: d' else (k', v') :: setitem d' k v
  end.

(** [d.update] with keyword arguments [kw], known to be strings *)
Definition update (d : t) (kw : list (string * pyval)) : t :=
  fold_left (fun acc kv => setitem acc (fst kv) (snd kv)) kw d.

End OrderedDict.

Abbreviation odict := OrderedDict.t.

(** ** Computations that may raise *)

Module Exec.

(** A computation over a store [S]: it ends in a value or in an exception,
    and leaves the store as it is at that point. *)
Definition M (S A : Type) : Type := S -> result A * S.

Definition ret {S A} (a : A) : M S A := fun s => (Ok a, s).

Definition raise {S A} (e : exn) : M S A := fun s => (Raise e, s).

Definition bind {S A B} (m : M S A) (k : A -> M S B) : M S B :=
  fun s =>
    match m s with
    | (Ok a, s') => k a s'
    | (Raise e, s') => (Raise e, s')
    end.

(** A pure step that may raise *)
Definition from_result {S A} (r : result A) : M S A := fun s => (r, s).

End Exec.
Export Exec.

Declare Scope exec_scope.
Delimit Scope exec_scope with exec.
Notation "x <- m ;; k" := (bind m (fun x => k))
  (at level 100, m at next level, right associativity) : exec_scope.
Notation "m ;;; k" := (bind m (fun _ => k))
  (at level 100, right associativity) : exec_scope.

(** ** Fiona, as the driver sees it *)

Module Fiona.

(** The keyword arguments of [fio.open]: [schema] (its [properties] and
    [geometry]), [crs] and [driver]. *)
Record meta : Type := {
  schema_properties : odict;
  schema_geometry : string;
  crs : pyval;
  driver : pyval
}.

(** The [geometry] entry of a feature: [type] and [coordinates]. *)
Inductive geometry : Type :=
| Point (x y : pyval)
| LineString (coordinates : list (pyval * pyval)).

(** A feature, the dict handed to [Collection.write]. *)
Record feature : Type := {
  type : string;
  geom : geometry;
  properties : odict
}.

(** A collection object: the place of its [open] in the log identifies it,
    and [meta] is what it was opened with. *)
Record collection : Type := {
  handle : nat;
  col_meta : meta
}.

Inductive call : Type :=
| Open (path mode : pyval) (m : meta)
| Write (h : nat) (ft : feature)
| Close (h : nat).

(** One call made to Fiona and the exception it raised, if any. *)
Record entry : Type := {
  called : call;
  raised : option exn
}.

(** Everything the driver did to the outside, oldest call first. *)
Definition world : Type := list entry.

(** What Fiona answers to a call, given the calls before it. *)
Definition oracle : Type := world -> call -> option exn.

(** The features a collection accepted, in the order they were written. *)
Fixpoint records (w : world) (h : nat) : list feature :=
  match w with
  | [] => []
  | {| called := Write h' ft; raised := None |} :: w' =>
      if Nat.eqb h' h then ft :: records w' h else records w' h
  | _ :: w' => records w' h
  end.

(** The calls of a log, without their outcome. *)
Definition calls (w : world) : list call := map called w.

Section Calls.

Variable fiona : oracle.

Definition perform (c : call) : M world unit :=
  fun w =>
    match fiona w c with
    | None => (Ok tt, w ++ [{| called := c; raised := None |}])
    | Some e => (Raise e, w ++ [{| called := c; raised := Some e |}])
    end.

(** [fio.open(path, mode, **m)] *)
Definition open (path mode : pyval) (m : meta) : M world collection :=
  fun w =>
    (perform (Open path mode m) ;;;
     ret {| handle := length w; col_meta := m |})%exec w.

(** [c.write(ft)] *)
Definition write (c : collection) (ft : feature) : M world unit :=
  perform (Write (handle c) ft).

(** [c.close()] *)
Definition close (c : collection) : M world unit :=
  perform (Close (handle c)).

(** [with fio.open(path, mode, **m) as dst: body]: the collection is closed
    when the body ends, also when it ends in an exception, which then goes
    on to the caller unless [close] raises one of its own. *)
Definition with_open {A} (path mode : pyval) (m : meta)
    (body : collection -> M world A) : M world A :=
  (dst <- open path mode m ;;
   fun w =>
     match body dst w with
     | (Ok a, w1) => (close dst ;;; ret a) w1
     | (Raise e, w1) => (close dst ;;; raise e) w1
     end)%exec.

End Calls.

End Fiona.

(** ** The schema resolution of [Vector.__init__] *)

Module Vector.

(** [Vector.default_fields] *)
Definition default_fields : odict :=
  [ ("mmsi", PyStr "int:30");
    ("timestamp", PyStr "str:40");
    ("course", PyStr "float:12.1");
    ("speed", PyStr "float:10.1");
    ("heading", PyStr "int:7") ].

(** The keywords a call gets when a dict [d] is expanded into keyword
    arguments: every key has to be a string, or the call raises
    [TypeError] before the callee runs. *)
Fixpoint keywords (d : list (pyval * pyval)) : result (list (string * pyval)) :=
  match d with
  | [] => Ok []
  | (PyStr k, v) :: d' =>
      match keywords d' with
      | Ok kw => Ok ((k, v) :: kw)
      | Raise e => Raise e
      end
  | _ :: _ => Raise TypeError
  end.

(** One turn of the loop of lines 92-94:
    [name, definition = d.split(':', 1); properties[name] = definition].
    A value without [split] raises [AttributeError], a token that does not
    unpack into two raises [ValueError]. *)
Definition add_definition (properties : odict) (d : pyval) : result odict :=
  match d with
  | PyStr tok =>
      match split1 ":" tok with
      | [name; definition] =>
          Ok (OrderedDict.setitem properties name (PyStr definition))
      | _ => Raise ValueError
      end
  | _ => Raise AttributeError
  end.

Fixpoint add_definitions (properties : odict) (fields : list pyval) : result odict :=
  match fields with
  | [] => Ok properties
  | d :: rest =>
      match add_definition properties d with
      | Ok properties' => add_definitions properties' rest
      | Raise e => Raise e
      end
  end.

(** Lines 86-94: the copy of the defaults, the split of a string at its
    commas, then the dispatch on a mapping or a sequence.  Any other value
    leaves the copy as it is. *)
Definition resolve_properties (fields : pyval) : result odict :=
  let properties := default_fields in
  let fields :=
    match fields with
    | PyStr s => PyList (map PyStr (split "," s))
    | _ => fields
    end in
  match fields with
  | PyDict d =>
      match keywords d with
      | Ok kw => Ok (OrderedDict.update properties kw)
      | Raise e => Raise e
      end
  | PyList l | PyTuple l => add_definitions properties l
  | _ => Ok properties
  end.

(** The options of [__init__] after [f]. *)
Record options : Type := {
  mode : pyval;
  driver : pyval;
  line : pyval;
  crs : pyval;
  fields : pyval
}.

(** [mode='w', driver='ESRI Shapefile', line=None, crs='EPSG:4326',
    fields=None] *)
Definition defaults : options :=
  {| mode := PyStr "w"; driver := PyStr "ESRI Shapefile"; line := PyNone;
     crs := PyStr "EPSG:4326"; fields := PyNone |}.

(** The attributes of a driver object.  [stream] is the one
    [BaseDriver.__init__] stores. *)
Record vector : Type := {
  stream : Fiona.collection;
  _line_coords : list (pyval * pyval);
  _line : pyval;
  _line_meta : Fiona.meta
}.

(** The store of a method call: the object and the outside. *)
Record store : Type := {
  self : vector;
  fs : Fiona.world
}.

(** A message: [msg.get(k)] is [None] for a missing key. *)
Definition msg_get (msg : gmap string pyval) (k : string) : pyval :=
  default PyNone (msg !! k).

(** [{f: g(f) for f in ks}] *)
Definition dict_comp (ks : list string) (g : string -> pyval) : odict :=
  fold_left (fun d f => OrderedDict.setitem d f (g f)) ks [].

Definition get_self : M store vector := fun st => (Ok (self st), st).

(** The object after [self._line_coords = cs] *)
Definition with_line_coords (v : vector) (cs : list (pyval * pyval)) : vector :=
  {| stream := stream v; _line_coords := cs; _line := _line v;
     _line_meta := _line_meta v |}.

Definition set_line_coords (cs : list (pyval * pyval)) : M store unit :=
  fun st => (Ok tt, {| self := with_line_coords (self st) cs; fs := fs st |}).

(** A computation on the outside, run from a method. *)
Definition outside {A} (m : M Fiona.world A) : M store A :=
  fun st => let (r, w) := m (fs st) in (r, {| self := self st; fs := w |}).

(** The dict of lines 126-133, the feature of a message at [(x, y)]: its
    properties are read off the schema of the open stream. *)
Definition point_feature (self : vector) (msg : gmap string pyval)
    (x y : pyval) : Fiona.feature :=
  {| Fiona.type := "Feature";
     Fiona.geom := Fiona.Point x y;
     Fiona.properties :=
       dict_comp
         (OrderedDict.keys
            (Fiona.schema_properties (Fiona.col_meta (stream self))))
         (msg_get msg) |}.

(** The dict of lines 141-148, the one feature of the line file. *)
Definition line_feature (self : vector) : Fiona.feature :=
  {| Fiona.type := "Feature";
     Fiona.properties := [];
     Fiona.geom := Fiona.LineString (_line_coords self) |}.

Section Driver.

Variable fiona : Fiona.oracle.

(** [Vector.__init__(self, f, mode, driver, line, crs, fields)], lines
    80-120.  The line meta is the deep copy of [meta] with its properties
    emptied and its geometry replaced; the logging calls are left out. *)
Definition __init__ (f : pyval) (o : options) : M Fiona.world vector :=
  (if negb (is_string f) then raise TypeError
   else
     properties <- from_result (resolve_properties (fields o)) ;;
     let meta :=
       {| Fiona.schema_properties := properties;
          Fiona.schema_geometry := "Point";
          Fiona.crs := crs o;
          Fiona.driver := driver o |} in
     stream <- Fiona.open fiona f (mode o) meta ;;
     ret {| stream := stream;
            _line_coords := [];
            _line := line o;
            _line_meta :=
              {| Fiona.schema_properties := [];
                 Fiona.schema_geometry := "LineString";
                 Fiona.crs := Fiona.crs meta;
                 Fiona.driver := Fiona.driver meta |} |})%exec.

(** [Vector.write(self, msg)], lines 122-135 *)
Definition write (msg : gmap string pyval) : M store unit :=
  (let x := msg_get msg "lon" in
   let y := msg_get msg "lat" in
   (if is_not_none x && is_not_none y then
      self <- get_self ;;
      outside (Fiona.write fiona (stream self) (point_feature self msg x y))
    else ret tt) ;;;
   self <- get_self ;;
   if truthy (_line self) then
     set_line_coords (_line_coords self ++ [(x, y)])
   else ret tt)%exec.

(** [Vector.close(self)], lines 137-149 *)
Definition close : M store unit :=
  (self <- get_self ;;
   outside (Fiona.close fiona (stream self)) ;;;
   (if truthy (_line self) then
      outside (Fiona.with_open fiona (_line self) (PyStr "w") (_line_meta self)
        (fun dst => Fiona.write fiona dst (line_feature self)))
    else ret tt) ;;;
   set_line_coords [])%exec.

(** [for msg in msgs: drv.write(msg)], the loop of the plugin host *)
Fixpoint write_all (msgs : list (gmap string pyval)) : M store unit :=
  match msgs with
  | [] => ret tt
  | msg :: rest => (write msg ;;; write_all rest)%exec
  end.

End Driver.

End Vector.


(** ** Inputs and environments the statements are about *)

Module Shapes.

(** The three ways to write the same overrides [(name, definition)]: the
    tokens [name:definition] in a list, the tokens joined by commas, and
    the mapping from names to definitions. *)
Definition as_token (kv : string * string) : string :=
  fst kv +:+ ":" +:+ snd kv.

Definition as_list (ovs : list (string * string)) : pyval :=
  PyList (map (fun kv => PyStr (as_token kv)) ovs).

Definition as_string (ovs : list (string * string)) : pyval :=
  PyStr (join "," (map as_token ovs)).

Definition as_mapping (ovs : list (string * string)) : pyval :=
  PyDict (map (fun kv => (PyStr (fst kv), PyStr (snd kv))) ovs).

(** A mapping with string keys, as a Python value. *)
Definition mapping (items : list (string * pyval)) : pyval :=
  PyDict (map (fun kv => (PyStr (fst kv), snd kv)) items).

(** The options [o] with another [fields], another [line]. *)
Definition with_fields (o : Vector.options) (v : pyval) : Vector.options :=
  {| Vector.mode := Vector.mode o; Vector.driver := Vector.driver o;
     Vector.line := Vector.line o; Vector.crs := Vector.crs o;
     Vector.fields := v |}.

Definition with_line (o : Vector.options) (v : pyval) : Vector.options :=
  {| Vector.mode := Vector.mode o; Vector.driver := Vector.driver o;
     Vector.line := v; Vector.crs := Vector.crs o;
     Vector.fields := Vector.fields o |}.

(** A driver object with another [_line]. *)
Definition set_line (v : Vector.vector) (l : pyval) : Vector.vector :=
  {| Vector.stream := Vector.stream v;
     Vector._line_coords := Vector._line_coords v;
     Vector._line := l;
     Vector._line_meta := Vector._line_meta v |}.

(** The meta [__init__] opens the point stream with, for a schema. *)
Definition point_meta (o : Vector.options) (schema : odict) : Fiona.meta :=
  {| Fiona.schema_properties := schema;
     Fiona.schema_geometry := "Point";
     Fiona.crs := Vector.crs o;
     Fiona.driver := Vector.driver o |}.

(** A Fiona that accepts every call. *)
Definition accepts_all : Fiona.oracle := fun _ _ => None.

(** A Fiona that rejects every line geometry and accepts the rest. *)
Definition rejects_lines : Fiona.oracle :=
  fun _ c =>
    match c with
    | Fiona.Write _ {| Fiona.geom := Fiona.LineString _ |} =>
        Some (FionaError "record does not match the schema")
    | _ => None
    end.

(** A message with a position, and one with a latitude only. *)
Definition at_position (x y : pyval) : gmap string pyval :=
  {[ "lon" := x; "lat" := y ]}.

Definition latitude_only (y : pyval) : gmap string pyval :=
  {[ "lat" := y ]}.

(** A message with a position, a heading and a key no schema has. *)
Definition heading_message : gmap string pyval :=
  {[ "lon" := PyFloat 1; "lat" := PyFloat 2; "heading" := PyInt 90;
     "shipname" := PyStr "Aurora" ]}.

(** The store right after [Vector("points.shp", line="track.shp")] on a
    fresh log, with a Fiona that accepted the [open]. *)
Definition tracking : Vector.store :=
  {| Vector.self :=
       {| Vector.stream :=
            {| Fiona.handle := 0;
               Fiona.col_meta := point_meta Vector.defaults Vector.default_fields |};
          Vector._line_coords := [];
          Vector._line := PyStr "track.shp";
          Vector._line_meta :=
            {| Fiona.schema_properties := [];
               Fiona.schema_geometry := "LineString";
               Fiona.crs := PyStr "EPSG:4326";
               Fiona.driver := PyStr "ESRI Shapefile" |} |};
     Vector.fs :=
       [{| Fiona.called :=
             Fiona.Open (PyStr "points.shp") (PyStr "w")
               (point_meta Vector.defaults Vector.default_fields);
           Fiona.raised := None |}] |}.

(** The store after the host made a driver on a fresh log and wrote
    [msgs] to it, when nothing raised. *)
Definition session (fiona : Fiona.oracle) (path : string)
    (o : Vector.options) (msgs : list (gmap string pyval)) : option Vector.store :=
  match Vector.__init__ fiona (PyStr path) o [] with
  | (Ok v, w) =>
      match Vector.write_all fiona msgs {| Vector.self := v; Vector.fs := w |} with
      | (Ok _, st) => Some st
      | (Raise _, _) => None
      end
  | (Raise _, _) => None
  end.

(** The three messages at [(0, 0)], [(1, 1)] and [(2, 2)]. *)
Definition diagonal : list (gmap string pyval) :=
  [ at_position (PyInt 0) (PyInt 0); at_position (PyInt 1) (PyInt 1);
    at_position (PyInt 2) (PyInt 2) ].

(** The store of a driver with a line file after one message at [(0, 0)]
    and after the three of [diagonal], all accepted: the value of
    [session] there. *)
Definition one_point : Vector.store :=
  Eval vm_compute in
    default tracking
      (session accepts_all "points.shp"
         (with_line Vector.defaults (PyStr "track.shp"))
         [at_position (PyInt 0) (PyInt 0)]).

Definition three_points : Vector.store :=
  Eval vm_compute in
    default tracking
      (session accepts_all "points.shp"
         (with_line Vector.defaults (PyStr "track.shp")) diagonal).

End Shapes.

(** ** Vocabulary of the further properties *)

Module Scenes.

(** The pair [write] reads off a message, and whether it makes a point. *)
Definition position (msg : gmap string pyval) : pyval * pyval :=
  (Vector.msg_get msg "lon", Vector.msg_get msg "lat").

Definition has_position (msg : gmap string pyval) : bool :=
  is_not_none (Vector.msg_get msg "lon") && is_not_none (Vector.msg_get msg "lat").

(** The overrides of a list of tokens as items, and the definition the
    last token of a name gives it. *)
Definition items_of (ovs : list (string * string)) : list (string * pyval) :=
  map (fun kv => (fst kv, PyStr (snd kv))) ovs.

Definition last_definition (ovs : list (string * string)) (k : string) : option pyval :=
  OrderedDict.get (rev (items_of ovs)) k.

(** A Fiona that cannot open anything. *)
Definition rejects_open : Fiona.oracle :=
  fun _ c =>
    match c with
    | Fiona.Open _ _ _ => Some (FionaError "unsupported driver")
    | _ => None
    end.

End Scenes.

(** * Properties *)

(** ** Strings *)

Section Strings.

Variable sep : ascii.

Lemma split_without (s : string) :
  contains sep s = false -> split sep s = [s].
Proof.
  induction s as [|c s IH]; simpl; [reflexivity|].
  intros H. apply orb_false_iff in H as [Hc Hs].
  rewrite Hc, (IH Hs). reflexivity.
Qed.

Lemma split_append (s t : string) :
  contains sep s = false ->
  split sep (s +:+ String sep t) = s :: split sep t.
Proof.
  induction s as [|c s IH]; simpl.
  - intros _. rewrite Ascii.eqb_refl. reflexivity.
  - intros H. apply orb_false_iff in H as [Hc Hs].
    rewrite Hc, (IH Hs). reflexivity.
Qed.

Lemma split_join (toks : list string) :
  toks <> [] ->
  Forall (fun t => contains sep t = false) toks ->
  split sep (join sep toks) = toks.
Proof.
  intros Hne Hall. induction Hall as [|t toks Ht Hall IH]; [contradiction|].
  destruct toks as [|t' toks].
  - simpl. apply split_without, Ht.
  - change (join sep (t :: t' :: toks))
      with (t +:+ String sep (join sep (t' :: toks))).
    rewrite (split_append _ _ Ht), IH; [reflexivity|discriminate].
Qed.

Lemma split1_without (s : string) :
  contains sep s = false -> split1 sep s = [s].
Proof.
  induction s as [|c s IH]; simpl; [reflexivity|].
  intros H. apply orb_false_iff in H as [Hc Hs].
  rewrite Hc, (IH Hs). reflexivity.
Qed.

Lemma split1_append (s t : string) :
  contains sep s = false ->
  split1 sep (s +:+ String sep t) = [s; t].
Proof.
  induction s as [|c s IH]; simpl.
  - intros _. rewrite Ascii.eqb_refl. reflexivity.
  - intros H. apply orb_false_iff in H as [Hc Hs].
    rewrite Hc, (IH Hs). reflexivity.
Qed.

End Strings.

(** ** Ordered dictionaries *)

Section Dicts.

Import OrderedDict.

Lemma get_setitem_same (d : odict) k v : get (setitem d k v) k = Some v.
Proof.
  induction d as [|[k' v'] d IH]; simpl.
  - rewrite String.eqb_refl. reflexivity.
  - destruct (String.eqb_spec k' k) as [->|Hne]; simpl.
    + rewrite String.eqb_refl. reflexivity.
    + destruct (String.eqb_spec k' k); [contradiction|exact IH].
Qed.

Lemma get_setitem_other (d : odict) k k0 v :
  k <> k0 -> get (setitem d k v) k0 = get d k0.
Proof.
  intros Hne. induction d as [|[k' v'] d IH]; simpl.
  - destruct (String.eqb_spec k k0); [contradiction|reflexivity].
  - destruct (String.eqb_spec k' k) as [->|Hk]; simpl.
    + destruct (String.eqb_spec k k0); [contradiction|reflexivity].
    + rewrite IH. reflexivity.
Qed.

Lemma keys_setitem_old (d : odict) k v :
  k ∈ keys d -> keys (setitem d k v) = keys d.
Proof.
  induction d as [|[k' v'] d IH]; simpl.
  - intros H. apply elem_of_nil in H. contradiction.
  - intros H. destruct (String.eqb_spec k' k) as [->|Hk]; simpl; [reflexivity|].
    apply elem_of_cons in H as [->|H]; [contradiction|].
    rewrite (IH H). reflexivity.
Qed.

Lemma keys_setitem_new (d : odict) k v :
  k ∉ keys d -> keys (setitem d k v) = keys d ++ [k].
Proof.
  induction d as [|[k' v'] d IH]; simpl; [reflexivity|].
  intros H. apply not_elem_of_cons in H as [Hk H].
  destruct (String.eqb_spec k' k) as [->|_]; [contradiction|].
  simpl. rewrite (IH H). reflexivity.
Qed.

Lemma keys_setitem_NoDup (d : odict) k v :
  NoDup (keys d) -> NoDup (keys (setitem d k v)).
Proof.
  intros Hd. destruct (decide (k ∈ keys d)) as [Hin|Hnin].
  - rewrite keys_setitem_old by exact Hin. exact Hd.
  - rewrite keys_setitem_new by exact Hnin.
    apply NoDup_app. split; [exact Hd|]. split.
    + intros x Hx Hx'. apply list_elem_of_singleton in Hx'. subst x. contradiction.
    + apply NoDup_singleton.
Qed.

Lemma keys_update_NoDup (kw : list (string * pyval)) (d : odict) :
  NoDup (keys d) -> NoDup (keys (update d kw)).
Proof.
  revert d. induction kw as [|[k v] kw IH]; intros d Hd; [exact Hd|].
  apply IH, keys_setitem_NoDup, Hd.
Qed.

Lemma filter_agree (P Q : string -> Prop)
    `{!forall x, Decision (P x)} `{!forall x, Decision (Q x)} (l : list string) :
  (forall x, x ∈ l -> P x <-> Q x) -> filter P l = filter Q l.
Proof.
  induction l as [|x l IH]; intros Hl; [reflexivity|].
  rewrite !filter_cons.
  rewrite IH by (intros y Hy; apply Hl; right; exact Hy).
  pose proof (Hl x (list_elem_of_here _ _)) as Hx.
  destruct (decide (P x)) as [HP|HP], (decide (Q x)) as [HQ|HQ];
    try reflexivity; tauto.
Qed.

(** The keys after an update: the old ones where they were, then the new
    ones in the order given. *)
Lemma keys_update (kw : list (string * pyval)) (d : odict) :
  NoDup (map fst kw) ->
  keys (update d kw) = keys d ++ filter (fun k => k ∉ keys d) (map fst kw).
Proof.
  revert d. induction kw as [|[k v] kw IH]; intros d Hkw; simpl.
  - rewrite app_nil_r. reflexivity.
  - apply NoDup_cons in Hkw as [Hk Hkw].
    change (update d ((k, v) :: kw)) with (update (setitem d k v) kw).
    rewrite (IH _ Hkw). rewrite filter_cons.
    destruct (decide (k ∈ keys d)) as [Hin|Hnin].
    + rewrite (keys_setitem_old _ _ _ Hin).
      destruct (decide (k ∉ keys d)); [contradiction|reflexivity].
    + rewrite (keys_setitem_new _ _ _ Hnin).
      destruct (decide (k ∉ keys d)); [|contradiction].
      rewrite <- app_assoc. simpl. do 2 f_equal.
      apply filter_agree. intros x Hx.
      rewrite not_elem_of_app, list_elem_of_singleton.
      split; [intros [H _]; exact H|intros H; split; [exact H|]].
      intros ->. contradiction.
Qed.

Lemma get_update_other (kw : list (string * pyval)) (d : odict) k :
  k ∉ map fst kw -> get (update d kw) k = get d k.
Proof.
  revert d. induction kw as [|[k' v] kw IH]; intros d Hk; [reflexivity|].
  simpl in Hk. apply not_elem_of_cons in Hk as [Hne Hk].
  change (update d ((k', v) :: kw)) with (update (setitem d k' v) kw).
  rewrite (IH _ Hk). apply get_setitem_other. congruence.
Qed.

Lemma get_update_item (kw : list (string * pyval)) (d : odict) k v :
  NoDup (map fst kw) -> (k, v) ∈ kw -> get (update d kw) k = Some v.
Proof.
  revert d. induction kw as [|[k' v'] kw IH]; intros d Hkw Hin.
  - apply elem_of_nil in Hin. contradiction.
  - simpl in Hkw. apply NoDup_cons in Hkw as [Hk' Hkw].
    change (update d ((k', v') :: kw)) with (update (setitem d k' v') kw).
    apply elem_of_cons in Hin as [Heq|Hin].
    + injection Heq as -> ->.
      rewrite (get_update_other _ _ _ Hk'). apply get_setitem_same.
    + apply IH; assumption.
Qed.

End Dicts.

(** ** The schema resolution *)

Section Resolution.

Import OrderedDict Vector Shapes.

Lemma keywords_mapping (items : list (string * pyval)) :
  keywords (map (fun kv => (PyStr (fst kv), snd kv)) items) = Ok items.
Proof.
  induction items as [|[k v] items IH]; simpl; [reflexivity|].
  rewrite IH. reflexivity.
Qed.

Lemma add_definitions_tokens (ovs : list (string * string)) (d : odict) :
  Forall (fun kv => contains ":" (fst kv) = false) ovs ->
  add_definitions d (map (fun kv => PyStr (as_token kv)) ovs) =
  Ok (update d (map (fun kv => (fst kv, PyStr (snd kv))) ovs)).
Proof.
  intros Hall. revert d.
  induction Hall as [|[k v] ovs Hk Hall IH]; intros d; [reflexivity|].
  simpl in Hk. cbn [map add_definitions add_definition].
  unfold as_token at 1. cbn [fst snd].
  change (k +:+ ":" +:+ v) with (k +:+ String ":" v).
  rewrite (split1_append _ _ _ Hk). apply IH.
Qed.

Lemma add_definition_str (d : odict) (tok : string) :
  (exists d', add_definition d (PyStr tok) = Ok d') \/
  add_definition d (PyStr tok) = Raise ValueError.
Proof.
  unfold add_definition.
  destruct (split1 ":" tok) as [|a [|b [|c l]]]; eauto.
Qed.

Lemma add_definitions_malformed (toks : list string) (d : odict) :
  Exists (fun t => contains ":" t = false) toks ->
  add_definitions d (map PyStr toks) = Raise ValueError.
Proof.
  intros Hex. revert d.
  induction Hex as [t toks Ht|t toks Hex IH]; intros d;
    cbn [map add_definitions].
  - unfold add_definition. rewrite (split1_without _ _ Ht). reflexivity.
  - destruct (add_definition_str d t) as [[d' ->]| ->]; [apply IH|reflexivity].
Qed.

Lemma resolve_properties_NoDup (fields : pyval) (schema : odict) :
  resolve_properties fields = Ok schema -> NoDup (keys schema).
Proof.
  assert (Hdef : NoDup (keys default_fields)).
  { apply (bool_decide_unpack (NoDup (keys default_fields))). vm_compute. exact I. }
  assert (Hadd : forall l d s,
             NoDup (keys d) -> add_definitions d l = Ok s -> NoDup (keys s)).
  { induction l as [|x l IH]; intros d s Hd; simpl.
    - intros [= <-]. exact Hd.
    - destruct (add_definition d x) as [d'|e] eqn:Hx; [|discriminate].
      apply IH. unfold add_definition in Hx.
      destruct x; try discriminate.
      destruct (split1 ":" s0) as [|a [|b [|c r]]]; try discriminate.
      injection Hx as <-. apply keys_setitem_NoDup, Hd. }
  unfold resolve_properties.
  destruct fields; try (intros [= <-]; exact Hdef); try (apply Hadd, Hdef).
  destruct (keywords d) as [kw|e]; [|discriminate].
  intros [= <-]. apply keys_update_NoDup, Hdef.
Qed.

End Resolution.

(** The corners of the resolution, as Python has them. *)
Example split_keeps_empty_pieces :
  split "," "a:int,,b:str," = ["a:int"; ""; "b:str"; ""] /\
  split "," "" = [""] /\
  split1 ":" "course:float:12.1" = ["course"; "float:12.1"].
Proof. repeat split; reflexivity. Qed.

Example empty_string_is_one_empty_token :
  Vector.resolve_properties (PyStr "") = Raise ValueError /\
  Vector.resolve_properties (PyList []) = Ok Vector.default_fields /\
  Vector.resolve_properties (PyDict []) = Ok Vector.default_fields.
Proof. repeat split; reflexivity. Qed.

Example element_without_split :
  Vector.resolve_properties (PyList [PyInt 7; PyStr "heading"]) =
  Raise AttributeError.
Proof. reflexivity. Qed.

Example key_that_is_no_keyword :
  Vector.resolve_properties (PyDict [(PyInt 1, PyStr "int:3")]) = Raise TypeError.
Proof. reflexivity. Qed.

Example repeated_name_keeps_its_place :
  Vector.resolve_properties
    (PyList [PyStr "flag:str:1"; PyStr "mmsi:str:9"; PyStr "flag:int:2"]) =
  Ok [ ("mmsi", PyStr "str:9"); ("timestamp", PyStr "str:40");
       ("course", PyStr "float:12.1"); ("speed", PyStr "float:10.1");
       ("heading", PyStr "int:7"); ("flag", PyStr "int:2") ].
Proof. reflexivity. Qed.

(** ** The constructor *)

(** Unfolds the steps of a computation down to the oracle's answers. *)
Ltac run_exec :=
  repeat progress
    (unfold bind, ret, raise, from_result, Fiona.open, Fiona.write,
       Fiona.close, Fiona.with_open, Fiona.perform, Vector.outside,
       Vector.get_self, Vector.set_line_coords;
     cbv beta iota zeta).

Section Constructor.

Import Vector Shapes.

Variable fiona : Fiona.oracle.

(** With a string for [f] and a field-spec that resolves, the constructor
    makes one call, the [open] of the point stream with the resolved schema,
    and the outcome of that call is its own. *)
Lemma init_resolved (path : string) (o : options) (w : Fiona.world) (schema : odict) :
  resolve_properties (fields o) = Ok schema ->
  __init__ fiona (PyStr path) o w =
  let c := Fiona.Open (PyStr path) (mode o) (point_meta o schema) in
  match fiona w c with
  | None =>
      (Ok {| stream := {| Fiona.handle := length w;
                          Fiona.col_meta := point_meta o schema |};
             _line_coords := [];
             _line := line o;
             _line_meta :=
               {| Fiona.schema_properties := [];
                  Fiona.schema_geometry := "LineString";
                  Fiona.crs := crs o;
                  Fiona.driver := driver o |} |},
       w ++ [{| Fiona.called := c; Fiona.raised := None |}])
  | Some e => (Raise e, w ++ [{| Fiona.called := c; Fiona.raised := Some e |}])
  end.
Proof.
  intros Hres. unfold __init__, point_meta. cbn [is_string negb].
  run_exec. rewrite Hres. run_exec.
  destruct (fiona w _); reflexivity.
Qed.

Lemma init_calls (path : string) (o : options) (w : Fiona.world) (schema : odict) :
  resolve_properties (fields o) = Ok schema ->
  Fiona.calls (snd (__init__ fiona (PyStr path) o w)) =
  Fiona.calls w ++ [Fiona.Open (PyStr path) (mode o) (point_meta o schema)].
Proof.
  intros Hres. rewrite (init_resolved _ _ _ _ Hres). cbv zeta.
  unfold Fiona.calls. destruct (fiona w _); cbn [snd]; rewrite map_app; reflexivity.
Qed.

(** A field-spec that does not resolve ends the constructor before any call. *)
Lemma init_unresolved (path : string) (o : options) (w : Fiona.world) (e : exn) :
  resolve_properties (fields o) = Raise e ->
  __init__ fiona (PyStr path) o w = (Raise e, w).
Proof.
  intros Hres. unfold __init__. cbn [is_string negb].
  run_exec. rewrite Hres. reflexivity.
Qed.

End Constructor.

(** C9. With [fields=None], which is also the default of the option, the
    schema is exactly the five default fields [mmsi: int:30],
    [timestamp: str:40], [course: float:12.1], [speed: float:10.1],
    [heading: int:7], in this order, and the point stream is opened with
    it. *)
Theorem default_schema_without_fields
    (fiona : Fiona.oracle) (path : string) (o : Vector.options) (w : Fiona.world) :
  let schema :=
    [ ("mmsi", PyStr "int:30"); ("timestamp", PyStr "str:40");
      ("course", PyStr "float:12.1"); ("speed", PyStr "float:10.1");
      ("heading", PyStr "int:7") ] in
  Vector.fields Vector.defaults = PyNone /\
  Vector.resolve_properties PyNone = Ok schema /\
  Fiona.calls (snd (Vector.__init__ fiona (PyStr path) (Shapes.with_fields o PyNone) w)) =
  Fiona.calls w ++
    [Fiona.Open (PyStr path) (Vector.mode o) (Shapes.point_meta o schema)].
Proof.
  intros schema. split; [reflexivity|]. split; [reflexivity|].
  apply (init_calls fiona path (Shapes.with_fields o PyNone) w schema).
  reflexivity.
Qed.

(** C8. A mapping given as [fields] is merged on top of the defaults: the
    values of the mapping win, the default keys stay where they are whether
    overridden or not, and the keys the defaults do not have come after
    them, in the order of the mapping. *)
Theorem mapping_merged_on_defaults (items : list (string * pyval)) :
  NoDup (map fst items) ->
  exists schema : odict,
    Vector.resolve_properties (Shapes.mapping items) = Ok schema /\
    OrderedDict.keys schema =
      OrderedDict.keys Vector.default_fields ++
      filter (fun k => k ∉ OrderedDict.keys Vector.default_fields) (map fst items) /\
    (forall k v, (k, v) ∈ items -> OrderedDict.get schema k = Some v) /\
    (forall k, k ∉ map fst items ->
       OrderedDict.get schema k = OrderedDict.get Vector.default_fields k).
Proof.
  intros Hnd. exists (OrderedDict.update Vector.default_fields items).
  split.
  - unfold Vector.resolve_properties, Shapes.mapping.
    rewrite keywords_mapping. reflexivity.
  - split; [apply keys_update, Hnd|]. split.
    + intros k v Hin. apply get_update_item; assumption.
    + intros k Hk. apply get_update_other, Hk.
Qed.

Lemma mapping_merged_on_defaults_witness :
  NoDup (map fst [("heading", PyStr "int:3"); ("flag", PyStr "str:1")]) /\
  exists schema : odict,
    Vector.resolve_properties
      (Shapes.mapping [("heading", PyStr "int:3"); ("flag", PyStr "str:1")]) = Ok schema /\
    OrderedDict.keys schema =
      OrderedDict.keys Vector.default_fields ++
      filter (fun k => k ∉ OrderedDict.keys Vector.default_fields)
        (map fst [("heading", PyStr "int:3"); ("flag", PyStr "str:1")]) /\
    (forall k v, (k, v) ∈ [("heading", PyStr "int:3"); ("flag", PyStr "str:1")] ->
       OrderedDict.get schema k = Some v) /\
    (forall k, k ∉ map fst [("heading", PyStr "int:3"); ("flag", PyStr "str:1")] ->
       OrderedDict.get schema k = OrderedDict.get Vector.default_fields k).
Proof.
  assert (Hnd : NoDup (map fst [("heading", PyStr "int:3"); ("flag", PyStr "str:1")])).
  { apply (bool_decide_unpack (NoDup _)). vm_compute. exact I. }
  split; [exact Hnd|].
  apply (mapping_merged_on_defaults
           [("heading", PyStr "int:3"); ("flag", PyStr "str:1")] Hnd).
Defined.

(** C4. Overrides written as a comma-delimited string, as a list of
    [name:definition] tokens and as a mapping resolve to the same schema,
    keys in the same order and with the same definitions: the defaults
    updated with the overrides in their order.  The overrides are those all
    three shapes can express: a name has no colon, no name or definition has
    a comma, and there is at least one override, the string of no token
    being one empty token. *)
Theorem shapes_resolve_alike (ovs : list (string * string)) :
  ovs <> [] ->
  Forall (fun kv => contains ":" (fst kv) = false) ovs ->
  Forall (fun kv => contains "," (fst kv) = false /\
                    contains "," (snd kv) = false) ovs ->
  let schema :=
    OrderedDict.update Vector.default_fields
      (map (fun kv => (fst kv, PyStr (snd kv))) ovs) in
  Vector.resolve_properties (Shapes.as_string ovs) = Ok schema /\
  Vector.resolve_properties (Shapes.as_list ovs) = Ok schema /\
  Vector.resolve_properties (Shapes.as_mapping ovs) = Ok schema.
Proof.
  intros Hne Hcolon Hcomma schema.
  assert (Hlist : Vector.resolve_properties (Shapes.as_list ovs) = Ok schema).
  { apply add_definitions_tokens, Hcolon. }
  split; [|split; [exact Hlist|]].
  - rewrite <- Hlist. unfold Vector.resolve_properties, Shapes.as_string, Shapes.as_list.
    rewrite split_join.
    + rewrite map_map. reflexivity.
    + destruct ovs; [contradiction|discriminate].
    + apply Forall_map. eapply Forall_impl; [exact Hcomma|].
      intros [k v] [Hk Hv]. cbn [fst snd] in *. unfold Shapes.as_token. cbn [fst snd].
      clear -Hk Hv. induction k as [|c k IH]; simpl in *.
      * exact Hv.
      * apply orb_false_iff in Hk as [Hc Hk]. rewrite Hc. apply IH, Hk.
  - unfold Vector.resolve_properties, Shapes.as_mapping.
    change (map (fun kv : string * string => (PyStr (fst kv), PyStr (snd kv))) ovs)
      with (map (fun kv : string * string =>
                   (fun it : string * pyval => (PyStr (fst it), snd it))
                     (fst kv, PyStr (snd kv))) ovs).
    rewrite <- (map_map (fun kv : string * string => (fst kv, PyStr (snd kv)))
                  (fun it : string * pyval => (PyStr (fst it), snd it))).
    rewrite keywords_mapping. reflexivity.
Qed.

Lemma shapes_resolve_alike_witness :
  Shapes.as_string [("heading", "int:3")] = PyStr "heading:int:3" /\
  Shapes.as_list [("heading", "int:3")] = PyList [PyStr "heading:int:3"] /\
  Shapes.as_mapping [("heading", "int:3")] =
    PyDict [(PyStr "heading", PyStr "int:3")] /\
  let schema :=
    OrderedDict.update Vector.default_fields
      (map (fun kv => (fst kv, PyStr (snd kv))) [("heading", "int:3")]) in
  schema =
    [ ("mmsi", PyStr "int:30"); ("timestamp", PyStr "str:40");
      ("course", PyStr "float:12.1"); ("speed", PyStr "float:10.1");
      ("heading", PyStr "int:3") ] /\
  Vector.resolve_properties (Shapes.as_string [("heading", "int:3")]) = Ok schema /\
  Vector.resolve_properties (Shapes.as_list [("heading", "int:3")]) = Ok schema /\
  Vector.resolve_properties (Shapes.as_mapping [("heading", "int:3")]) = Ok schema.
Proof.
  split; [reflexivity|]. split; [reflexivity|]. split; [reflexivity|].
  intros schema. split; [reflexivity|].
  apply (shapes_resolve_alike [("heading", "int:3")]).
  - discriminate.
  - repeat constructor.
  - repeat constructor.
Defined.

(** C7. A string or a list (or tuple) of strings given as [fields] in which
    some token has no colon makes the constructor raise [ValueError], the
    failure of the unpacking of the split token, before Fiona is called:
    the log of calls is the one the constructor started with. *)
Theorem token_without_colon_rejected
    (fiona : Fiona.oracle) (path : string) (o : Vector.options)
    (toks : list string) (w : Fiona.world) :
  (exists s, Vector.fields o = PyStr s /\ toks = split "," s) \/
  Vector.fields o = PyList (map PyStr toks) \/
  Vector.fields o = PyTuple (map PyStr toks) ->
  Exists (fun t => contains ":" t = false) toks ->
  Vector.__init__ fiona (PyStr path) o w = (Raise ValueError, w).
Proof.
  intros Hshape Hbad. apply init_unresolved.
  destruct Hshape as [[s [-> ->]]|[-> | ->]];
    apply (add_definitions_malformed _ _ Hbad).
Qed.

Lemma token_without_colon_rejected_witness :
  Vector.__init__ Shapes.accepts_all (PyStr "out.shp")
    (Shapes.with_fields Vector.defaults (PyStr "speed:float:4.1,heading")) [] =
  (Raise ValueError, []).
Proof.
  apply (token_without_colon_rejected Shapes.accepts_all "out.shp"
           (Shapes.with_fields Vector.defaults (PyStr "speed:float:4.1,heading"))
           ["speed:float:4.1"; "heading"] []).
  - left. exists "speed:float:4.1,heading". split; reflexivity.
  - right. left. reflexivity.
Defined.

(** C1, as the code has it.  A value given as [fields] that is not a string,
    not a list or tuple, not a mapping and not [None] is passed over by the
    three [isinstance] tests: the constructor raises nothing on its account,
    the schema is the default one, and the constructor does what it does
    with [fields=None], opening the point stream with the default schema. *)
Theorem other_fields_value_ignored
    (fiona : Fiona.oracle) (path : string) (o : Vector.options) (w : Fiona.world) :
  is_string (Vector.fields o) = false ->
  is_sequence (Vector.fields o) = false ->
  is_mapping (Vector.fields o) = false ->
  Vector.fields o <> PyNone ->
  Vector.resolve_properties (Vector.fields o) = Ok Vector.default_fields /\
  Vector.__init__ fiona (PyStr path) o w =
    Vector.__init__ fiona (PyStr path) (Shapes.with_fields o PyNone) w /\
  Fiona.calls (snd (Vector.__init__ fiona (PyStr path) o w)) =
    Fiona.calls w ++
      [Fiona.Open (PyStr path) (Vector.mode o)
         (Shapes.point_meta o Vector.default_fields)].
Proof.
  intros Hstr Hseq Hmap _.
  assert (Hres : Vector.resolve_properties (Vector.fields o) =
                 Ok Vector.default_fields).
  { destruct (Vector.fields o); try discriminate; reflexivity. }
  split; [exact Hres|]. split.
  - rewrite (init_resolved fiona path o w _ Hres).
    rewrite (init_resolved fiona path (Shapes.with_fields o PyNone) w
               Vector.default_fields eq_refl).
    reflexivity.
  - apply init_calls, Hres.
Qed.

Lemma other_fields_value_ignored_witness :
  Vector.resolve_properties (PyInt 5) = Ok Vector.default_fields /\
  Vector.__init__ Shapes.accepts_all (PyStr "out.shp")
    (Shapes.with_fields Vector.defaults (PyInt 5)) [] =
  Vector.__init__ Shapes.accepts_all (PyStr "out.shp")
    (Shapes.with_fields (Shapes.with_fields Vector.defaults (PyInt 5)) PyNone) [] /\
  Fiona.calls (snd (Vector.__init__ Shapes.accepts_all (PyStr "out.shp")
                      (Shapes.with_fields Vector.defaults (PyInt 5)) [])) =
    Fiona.calls [] ++
      [Fiona.Open (PyStr "out.shp") (PyStr "w")
         (Shapes.point_meta (Shapes.with_fields Vector.defaults (PyInt 5))
            Vector.default_fields)].
Proof.
  apply (other_fields_value_ignored Shapes.accepts_all "out.shp"
           (Shapes.with_fields Vector.defaults (PyInt 5)) []);
    (reflexivity || discriminate).
Defined.

(** C1, as stated, fails: with [fields=5] the constructor raises no
    [TypeError]; it returns a driver, after opening the point stream with
    the default schema. *)
Lemma integer_fields_not_a_type_error :
  is_string (PyInt 5) = false /\ is_sequence (PyInt 5) = false /\
  is_mapping (PyInt 5) = false /\ PyInt 5 <> PyNone /\
  Vector.__init__ Shapes.accepts_all (PyStr "out.shp")
    (Shapes.with_fields Vector.defaults (PyInt 5)) [] =
  (Ok {| Vector.stream :=
           {| Fiona.handle := 0;
              Fiona.col_meta :=
                Shapes.point_meta Vector.defaults Vector.default_fields |};
         Vector._line_coords := [];
         Vector._line := PyNone;
         Vector._line_meta :=
           {| Fiona.schema_properties := [];
              Fiona.schema_geometry := "LineString";
              Fiona.crs := PyStr "EPSG:4326";
              Fiona.driver := PyStr "ESRI Shapefile" |} |},
   [{| Fiona.called :=
         Fiona.Open (PyStr "out.shp") (PyStr "w")
           (Shapes.point_meta Vector.defaults Vector.default_fields);
       Fiona.raised := None |}]) /\
  fst (Vector.__init__ Shapes.accepts_all (PyStr "out.shp")
         (Shapes.with_fields Vector.defaults (PyInt 5)) []) <> Raise TypeError.
Proof.
  repeat split; try reflexivity; discriminate.
Qed.

(** ** Writing *)

Section Writing.

Import Vector Shapes.

Variable fiona : Fiona.oracle.

Lemma dict_comp_get (g : string -> pyval) (ks : list string) (f : string) :
  OrderedDict.get (dict_comp ks g) f =
  if decide (f ∈ ks) then Some (g f) else None.
Proof.
  unfold dict_comp.
  assert (Hgen : forall d,
            OrderedDict.get
              (fold_left (fun d f => OrderedDict.setitem d f (g f)) ks d) f =
            if decide (f ∈ ks) then Some (g f) else OrderedDict.get d f).
  { induction ks as [|k ks IH]; intros d; simpl.
    - destruct (decide (f ∈ [])) as [H|_]; [|reflexivity].
      apply elem_of_nil in H. contradiction.
    - rewrite IH. destruct (decide (f ∈ ks)) as [Hin|Hnin].
      + rewrite decide_True by (right; exact Hin). reflexivity.
      + destruct (decide (k = f)) as [->|Hne].
        * rewrite decide_True by left. apply get_setitem_same.
        * rewrite decide_False
            by (intros H; apply elem_of_cons in H as [->|H]; contradiction).
          apply get_setitem_other, Hne. }
  rewrite Hgen. destruct (decide (f ∈ ks)); reflexivity.
Qed.

Lemma dict_comp_NoDup (g : string -> pyval) (ks : list string) :
  NoDup ks -> dict_comp ks g = map (fun f => (f, g f)) ks.
Proof.
  unfold dict_comp. intros Hnd.
  assert (Hgen : forall d,
            (forall k, k ∈ ks -> k ∉ OrderedDict.keys d) ->
            fold_left (fun d f => OrderedDict.setitem d f (g f)) ks d =
            d ++ map (fun f => (f, g f)) ks).
  { induction Hnd as [|k ks Hk Hnd IH]; intros d Hd; simpl.
    - rewrite app_nil_r. reflexivity.
    - assert (Hset : OrderedDict.setitem d k (g k) = d ++ [(k, g k)]).
      { specialize (Hd k (list_elem_of_here _ _)). clear -Hd.
        induction d as [|[k' v'] d IHd]; simpl in *; [reflexivity|].
        apply not_elem_of_cons in Hd as [Hne Hd].
        destruct (String.eqb_spec k' k); [congruence|].
        rewrite (IHd Hd). reflexivity. }
      rewrite IH.
      + rewrite Hset, <- app_assoc. reflexivity.
      + intros k0 Hk0. rewrite Hset. unfold OrderedDict.keys.
        rewrite map_app. apply not_elem_of_app. split.
        * apply Hd. right. exact Hk0.
        * simpl. intros H. apply list_elem_of_singleton in H. subst k0.
          contradiction. }
  apply (Hgen []). intros k _. apply not_elem_of_nil.
Qed.

(** A message without a longitude or without a latitude: nothing is
    written, and the pair is recorded when [_line] is truthy. *)
Lemma write_skipped (msg : gmap string pyval) (st : store) :
  is_not_none (msg_get msg "lon") && is_not_none (msg_get msg "lat") = false ->
  write fiona msg st =
  (Ok tt,
   {| self :=
        if truthy (_line (self st)) then
          with_line_coords (self st)
            (_line_coords (self st) ++ [(msg_get msg "lon", msg_get msg "lat")])
        else self st;
      fs := fs st |}).
Proof.
  intros Hpos. destruct st as [v w]. unfold write. rewrite Hpos.
  run_exec. cbn [self fs]. destruct (truthy (_line v)); reflexivity.
Qed.

(** A message with both: one [write] on the stream, whose exception, if
    any, ends the call before the pair is recorded. *)
Lemma write_forwarded (msg : gmap string pyval) (st : store) :
  is_not_none (msg_get msg "lon") && is_not_none (msg_get msg "lat") = true ->
  write fiona msg st =
  let x := msg_get msg "lon" in
  let y := msg_get msg "lat" in
  let c := Fiona.Write (Fiona.handle (stream (self st)))
             (point_feature (self st) msg x y) in
  match fiona (fs st) c with
  | None =>
      (Ok tt,
       {| self :=
            if truthy (_line (self st)) then
              with_line_coords (self st) (_line_coords (self st) ++ [(x, y)])
            else self st;
          fs := fs st ++ [{| Fiona.called := c; Fiona.raised := None |}] |})
  | Some e =>
      (Raise e,
       {| self := self st;
          fs := fs st ++ [{| Fiona.called := c; Fiona.raised := Some e |}] |})
  end.
Proof.
  intros Hpos. destruct st as [v w]. unfold write. rewrite Hpos.
  run_exec. cbn [self fs]. destruct (fiona w _); [reflexivity|].
  run_exec. cbn [self fs]. destruct (truthy (_line v)); reflexivity.
Qed.

End Writing.

Example tracking_session :
  Shapes.session Shapes.accepts_all "points.shp"
    (Shapes.with_line Vector.defaults (PyStr "track.shp")) [] =
  Some Shapes.tracking.
Proof. reflexivity. Qed.

(** C2. A message whose [lon] or [lat] is missing or [None] (for both,
    [msg.get] gives [None]) makes [write] return without a call to Fiona, so
    without a point feature and without an error, and with the pair
    [(lon, lat)] added at the end of [_line_coords], [None] components
    included, exactly when [_line] is truthy.  And when [_line] is truthy,
    every [write] that returns, whether it wrote a point feature or not, has
    added exactly this one pair. *)
Theorem write_without_position
    (fiona : Fiona.oracle) (msg : gmap string pyval) (st : Vector.store) :
  let x := Vector.msg_get msg "lon" in
  let y := Vector.msg_get msg "lat" in
  (x = PyNone \/ y = PyNone ->
   Vector.write fiona msg st =
   (Ok tt,
    {| Vector.self :=
         if truthy (Vector._line (Vector.self st)) then
           Vector.with_line_coords (Vector.self st)
             (Vector._line_coords (Vector.self st) ++ [(x, y)])
         else Vector.self st;
       Vector.fs := Vector.fs st |})) /\
  (truthy (Vector._line (Vector.self st)) = true ->
   forall st', Vector.write fiona msg st = (Ok tt, st') ->
     Vector._line_coords (Vector.self st') =
     Vector._line_coords (Vector.self st) ++ [(x, y)]).
Proof.
  intros x y. split.
  - intros Hnone. apply write_skipped. fold x y.
    destruct Hnone as [-> | ->]; [reflexivity|apply andb_false_r].
  - intros Hline st' Hret.
    destruct (is_not_none x && is_not_none y) eqn:Hpos.
    + rewrite (write_forwarded fiona msg st Hpos) in Hret. cbv zeta in Hret.
      fold x y in Hret. destruct (fiona (Vector.fs st) _); [discriminate|].
      injection Hret as <-. cbn [Vector.self]. rewrite Hline. reflexivity.
    + rewrite (write_skipped fiona msg st Hpos) in Hret.
      injection Hret as <-. cbn [Vector.self]. rewrite Hline. reflexivity.
Qed.

Lemma write_without_position_witness :
  Vector.msg_get (Shapes.latitude_only (PyFloat 2)) "lon" = PyNone /\
  truthy (Vector._line (Vector.self Shapes.tracking)) = true /\
  Vector.write Shapes.accepts_all (Shapes.latitude_only (PyFloat 2)) Shapes.tracking =
  (Ok tt,
   {| Vector.self :=
        Vector.with_line_coords (Vector.self Shapes.tracking) [(PyNone, PyFloat 2)];
      Vector.fs := Vector.fs Shapes.tracking |}) /\
  Vector._line_coords
    (Vector.self
       (snd (Vector.write Shapes.accepts_all (Shapes.at_position (PyFloat 1) (PyFloat 2))
               Shapes.tracking))) =
  [(PyFloat 1, PyFloat 2)].
Proof.
  split; [reflexivity|]. split; [reflexivity|]. split.
  - apply (proj1 (write_without_position Shapes.accepts_all
                    (Shapes.latitude_only (PyFloat 2)) Shapes.tracking)).
    left. reflexivity.
  - apply (proj2 (write_without_position Shapes.accepts_all
                    (Shapes.at_position (PyFloat 1) (PyFloat 2)) Shapes.tracking)
             eq_refl).
    reflexivity.
Defined.

(** C6. A message whose [lon] and [lat] are both there and not [None] makes
    [write] call the stream's [write] exactly once, with the feature whose
    geometry is the point [(lon, lat)] and whose properties have, for every
    field name of the schema the stream was opened with, the value of the
    message, [None] when the message has none, and nothing for any other
    key of the message.  The call returns when Fiona accepted the feature. *)
Theorem write_with_position
    (fiona : Fiona.oracle) (msg : gmap string pyval) (st : Vector.store) :
  Vector.msg_get msg "lon" <> PyNone ->
  Vector.msg_get msg "lat" <> PyNone ->
  let x := Vector.msg_get msg "lon" in
  let y := Vector.msg_get msg "lat" in
  let schema :=
    Fiona.schema_properties (Fiona.col_meta (Vector.stream (Vector.self st))) in
  let ft := Vector.point_feature (Vector.self st) msg x y in
  let c := Fiona.Write (Fiona.handle (Vector.stream (Vector.self st))) ft in
  Vector.fs (snd (Vector.write fiona msg st)) =
    Vector.fs st ++
      [{| Fiona.called := c; Fiona.raised := fiona (Vector.fs st) c |}] /\
  (fiona (Vector.fs st) c = None -> fst (Vector.write fiona msg st) = Ok tt) /\
  Fiona.geom ft = Fiona.Point x y /\
  (forall f, f ∈ OrderedDict.keys schema ->
     OrderedDict.get (Fiona.properties ft) f = Some (Vector.msg_get msg f)) /\
  (forall f, f ∉ OrderedDict.keys schema ->
     OrderedDict.get (Fiona.properties ft) f = None) /\
  (NoDup (OrderedDict.keys schema) ->
   Fiona.properties ft =
   map (fun f => (f, Vector.msg_get msg f)) (OrderedDict.keys schema)).
Proof.
  intros Hx Hy x y schema ft c.
  assert (Hpos : is_not_none x && is_not_none y = true).
  { subst x y. destruct (Vector.msg_get msg "lon"), (Vector.msg_get msg "lat");
      try reflexivity; contradiction. }
  pose proof (write_forwarded fiona msg st Hpos) as Hw. cbv zeta in Hw.
  fold x y ft c in Hw.
  split; [|split; [|split; [reflexivity|split; [|split]]]].
  - rewrite Hw. destruct (fiona (Vector.fs st) c); reflexivity.
  - intros Hok. rewrite Hw, Hok. reflexivity.
  - intros f Hf. unfold ft, Vector.point_feature. cbn [Fiona.properties].
    rewrite dict_comp_get. apply decide_True, Hf.
  - intros f Hf. unfold ft, Vector.point_feature. cbn [Fiona.properties].
    rewrite dict_comp_get. apply decide_False, Hf.
  - intros Hnd. apply dict_comp_NoDup, Hnd.
Qed.

Lemma write_with_position_witness :
  Vector.msg_get Shapes.heading_message "lon" <> PyNone /\
  Vector.msg_get Shapes.heading_message "lat" <> PyNone /\
  Vector.fs (snd (Vector.write Shapes.accepts_all Shapes.heading_message Shapes.tracking)) =
  Vector.fs Shapes.tracking ++
    [{| Fiona.called :=
          Fiona.Write 0
            {| Fiona.type := "Feature";
               Fiona.geom := Fiona.Point (PyFloat 1) (PyFloat 2);
               Fiona.properties :=
                 [ ("mmsi", PyNone); ("timestamp", PyNone); ("course", PyNone);
                   ("speed", PyNone); ("heading", PyInt 90) ] |};
        Fiona.raised := None |}].
Proof.
  assert (Hlon : Vector.msg_get Shapes.heading_message "lon" <> PyNone)
    by discriminate.
  assert (Hlat : Vector.msg_get Shapes.heading_message "lat" <> PyNone)
    by discriminate.
  split; [exact Hlon|]. split; [exact Hlat|].
  exact (proj1 (write_with_position Shapes.accepts_all Shapes.heading_message
                  Shapes.tracking Hlon Hlat)).
Defined.

(** ** Closing *)

Section Closing.

Import Vector Shapes.

Variable fiona : Fiona.oracle.

(** Without a truthy [_line], [close] closes the stream and empties the
    accumulator. *)
Lemma close_untracked (st : store) :
  truthy (_line (self st)) = false ->
  close fiona st =
  let c := Fiona.Close (Fiona.handle (stream (self st))) in
  match fiona (fs st) c with
  | None =>
      (Ok tt,
       {| self := with_line_coords (self st) [];
          fs := fs st ++ [{| Fiona.called := c; Fiona.raised := None |}] |})
  | Some e =>
      (Raise e,
       {| self := self st;
          fs := fs st ++ [{| Fiona.called := c; Fiona.raised := Some e |}] |})
  end.
Proof.
  destruct st as [v w]. cbn [self fs]. intros Hline.
  unfold close. run_exec. cbn [self fs].
  destruct (fiona w _); [reflexivity|]. rewrite Hline. reflexivity.
Qed.

End Closing.

Example one_point_session :
  Shapes.session Shapes.rejects_lines "points.shp"
    (Shapes.with_line Vector.defaults (PyStr "track.shp"))
    [Shapes.at_position (PyInt 0) (PyInt 0)] = Some Shapes.one_point /\
  Vector._line_coords (Vector.self Shapes.one_point) = [(PyInt 0, PyInt 0)].
Proof. split; reflexivity. Qed.

Example three_points_session :
  Shapes.session Shapes.accepts_all "points.shp"
    (Shapes.with_line Vector.defaults (PyStr "track.shp")) Shapes.diagonal =
  Some Shapes.three_points /\
  Vector._line_coords (Vector.self Shapes.three_points) =
  [(PyInt 0, PyInt 0); (PyInt 1, PyInt 1); (PyInt 2, PyInt 2)] /\
  length (Vector.fs Shapes.three_points) = 4.
Proof. repeat split; reflexivity. Qed.

(** C3, as the code has it.  When [close] returns, the accumulator is empty,
    whether [_line] was truthy or not.  When [close] raises, because the
    close of the point stream, the open of the line file, the write of the
    line or the close of the line file raised, the last line of [close] is
    not reached and the accumulator is as it was. *)
Theorem accumulator_after_close (fiona : Fiona.oracle) (st : Vector.store) :
  match Vector.close fiona st with
  | (Ok _, st') => Vector._line_coords (Vector.self st') = []
  | (Raise _, st') =>
      Vector._line_coords (Vector.self st') = Vector._line_coords (Vector.self st)
  end.
Proof.
  destruct st as [v w]. unfold Vector.close. run_exec.
  cbn [Vector.self Vector.fs].
  destruct (fiona w _); [reflexivity|].
  destruct (truthy (Vector._line v)); [|reflexivity].
  run_exec. cbn [Vector.self Vector.fs].
  repeat (match goal with
          | |- context [fiona ?a ?b] => destruct (fiona a b)
          end; run_exec; cbn [Vector.self Vector.fs]); reflexivity.
Qed.

(** C3, as stated, fails: a driver with a line file and one coordinate,
    closed against a Fiona that rejects the line, ends [close] with the
    exception of the write, the line file opened and closed again, and the
    coordinate still in the accumulator. *)
Lemma accumulator_kept_when_line_write_fails :
  truthy (Vector._line (Vector.self Shapes.one_point)) = true /\
  fst (Vector.close Shapes.rejects_lines Shapes.one_point) =
    Raise (FionaError "record does not match the schema") /\
  Fiona.calls (Vector.fs (snd (Vector.close Shapes.rejects_lines Shapes.one_point))) =
    Fiona.calls (Vector.fs Shapes.one_point) ++
      [ Fiona.Close 0;
        Fiona.Open (PyStr "track.shp") (PyStr "w")
          (Vector._line_meta (Vector.self Shapes.one_point));
        Fiona.Write 3 (Vector.line_feature (Vector.self Shapes.one_point));
        Fiona.Close 3 ] /\
  Vector._line_coords
    (Vector.self (snd (Vector.close Shapes.rejects_lines Shapes.one_point))) =
    [(PyInt 0, PyInt 0)] /\
  Vector._line_coords
    (Vector.self (snd (Vector.close Shapes.rejects_lines Shapes.one_point))) <> [].
Proof.
  repeat split; try reflexivity. discriminate.
Qed.

(** With a truthy [_line], a [write] that returns has added the position of
    its message, so the accumulator holds the positions of the messages
    written, in the order of the calls. *)
Lemma write_all_accumulates
    (fiona : Fiona.oracle) (msgs : list (gmap string pyval)) (st st' : Vector.store) :
  truthy (Vector._line (Vector.self st)) = true ->
  Vector.write_all fiona msgs st = (Ok tt, st') ->
  Vector._line (Vector.self st') = Vector._line (Vector.self st) /\
  Vector._line_coords (Vector.self st') =
  Vector._line_coords (Vector.self st) ++
    map (fun msg => (Vector.msg_get msg "lon", Vector.msg_get msg "lat")) msgs.
Proof.
  revert st. induction msgs as [|msg msgs IH]; intros st Hline; simpl.
  - intros [= <-]. rewrite app_nil_r. split; reflexivity.
  - unfold bind.
    destruct (Vector.write fiona msg st) as [[[]|e] st1] eqn:Hw; [|discriminate].
    intros Hrest.
    assert (Hst1 : Vector._line (Vector.self st1) = Vector._line (Vector.self st) /\
                   Vector._line_coords (Vector.self st1) =
                   Vector._line_coords (Vector.self st) ++
                     [(Vector.msg_get msg "lon", Vector.msg_get msg "lat")]).
    { destruct (is_not_none (Vector.msg_get msg "lon") &&
                is_not_none (Vector.msg_get msg "lat")) eqn:Hpos.
      - rewrite (write_forwarded fiona msg st Hpos) in Hw. cbv zeta in Hw.
        destruct (fiona (Vector.fs st) _); [discriminate|].
        injection Hw as <-. cbn [Vector.self]. rewrite Hline. split; reflexivity.
      - rewrite (write_skipped fiona msg st Hpos) in Hw.
        injection Hw as <-. cbn [Vector.self]. rewrite Hline. split; reflexivity. }
    destruct Hst1 as [Hl1 Hc1].
    destruct (IH st1) as [Hl Hc]; [rewrite Hl1; exact Hline|exact Hrest|].
    split; [congruence|]. rewrite Hc, Hc1, <- app_assoc. reflexivity.
Qed.

(** C5. With a truthy [_line], [close] calls Fiona in this order: the close
    of the point stream; then, unless that raised, the open of [_line] in
    mode ['w'] with the line meta; then, unless that raised, the write of
    one feature, with no properties and the LineString of the accumulated
    coordinates in their order, followed by the close of the line file,
    whether the write raised or not.  When Fiona accepts them all, [close]
    returns with exactly these four calls made. *)
Theorem line_written_on_close (fiona : Fiona.oracle) (st : Vector.store) :
  truthy (Vector._line (Vector.self st)) = true ->
  let v := Vector.self st in
  let w := Vector.fs st in
  let closes := Fiona.Close (Fiona.handle (Vector.stream v)) in
  let opens := Fiona.Open (Vector._line v) (PyStr "w") (Vector._line_meta v) in
  let dst := S (length w) in
  let ft :=
    {| Fiona.type := "Feature";
       Fiona.properties := [];
       Fiona.geom := Fiona.LineString (Vector._line_coords v) |} in
  Fiona.calls (Vector.fs (snd (Vector.close fiona st))) =
    Fiona.calls w ++
      closes ::
      match fiona w closes with
      | Some _ => []
      | None =>
          opens ::
          match fiona (w ++ [{| Fiona.called := closes; Fiona.raised := None |}]) opens with
          | Some _ => []
          | None => [Fiona.Write dst ft; Fiona.Close dst]
          end
      end /\
  ((forall w' c, fiona w' c = None) ->
   Vector.close fiona st =
   (Ok tt,
    {| Vector.self := Vector.with_line_coords v [];
       Vector.fs :=
         w ++ map (fun c => {| Fiona.called := c; Fiona.raised := None |})
                [closes; opens; Fiona.Write dst ft; Fiona.Close dst] |})).
Proof.
  destruct st as [v w]. cbn [Vector.self Vector.fs]. intros Hline. cbv zeta.
  split.
  - unfold Vector.close. run_exec. cbn [Vector.self Vector.fs].
    destruct (fiona w _); cbn [snd Vector.fs].
    { unfold Fiona.calls. rewrite map_app. reflexivity. }
    rewrite Hline. run_exec. cbn [Vector.self Vector.fs].
    unfold Vector.line_feature. cbn [Fiona.handle].
    replace (length (w ++ [{| Fiona.called := Fiona.Close (Fiona.handle (Vector.stream v));
                              Fiona.raised := None |}])) with (S (length w))
      by (rewrite length_app; simpl; lia).
    repeat (match goal with
            | |- context [match fiona ?a ?b with _ => _ end] => destruct (fiona a b)
            end; run_exec; cbn [snd Vector.self Vector.fs]);
      unfold Fiona.calls; rewrite ?map_app, <- ?app_assoc; reflexivity.
  - intros Hok. unfold Vector.close. run_exec. cbn [Vector.self Vector.fs].
    rewrite Hline. rewrite !Hok. run_exec. cbn [Vector.self Vector.fs Fiona.handle].
    rewrite length_app. simpl length. rewrite Nat.add_1_r.
    rewrite <- !app_assoc. reflexivity.
Qed.

Lemma line_written_on_close_witness :
  truthy (Vector._line (Vector.self Shapes.three_points)) = true /\
  Fiona.calls (Vector.fs (snd (Vector.close Shapes.accepts_all Shapes.three_points))) =
    Fiona.calls (Vector.fs Shapes.three_points) ++
      [ Fiona.Close 0;
        Fiona.Open (PyStr "track.shp") (PyStr "w")
          {| Fiona.schema_properties := [];
             Fiona.schema_geometry := "LineString";
             Fiona.crs := PyStr "EPSG:4326";
             Fiona.driver := PyStr "ESRI Shapefile" |};
        Fiona.Write 5
          {| Fiona.type := "Feature";
             Fiona.properties := [];
             Fiona.geom :=
               Fiona.LineString
                 [(PyInt 0, PyInt 0); (PyInt 1, PyInt 1); (PyInt 2, PyInt 2)] |};
        Fiona.Close 5 ] /\
  Fiona.records (Vector.fs (snd (Vector.close Shapes.accepts_all Shapes.three_points))) 5 =
    [ {| Fiona.type := "Feature";
         Fiona.properties := [];
         Fiona.geom :=
           Fiona.LineString
             [(PyInt 0, PyInt 0); (PyInt 1, PyInt 1); (PyInt 2, PyInt 2)] |} ] /\
  map Fiona.geom
    (Fiona.records
       (Vector.fs (snd (Vector.close Shapes.accepts_all Shapes.three_points))) 0) =
    [ Fiona.Point (PyInt 0) (PyInt 0); Fiona.Point (PyInt 1) (PyInt 1);
      Fiona.Point (PyInt 2) (PyInt 2) ].
Proof.
  split; [reflexivity|]. split.
  - exact (proj1 (line_written_on_close Shapes.accepts_all Shapes.three_points
                    eq_refl)).
  - split; reflexivity.
Defined.

(** C10. A driver whose [_line] is the empty string behaves as one whose
    [_line] is [None]: [write] ends the same way, makes the same calls and
    leaves the object, its accumulator included, as it was; [close] ends the
    same way and makes the same calls, the close of the point stream and
    nothing else, so no line file is opened. *)
Theorem empty_line_inert
    (fiona : Fiona.oracle) (v : Vector.vector) (w : Fiona.world)
    (msg : gmap string pyval) :
  let empty := {| Vector.self := Shapes.set_line v (PyStr ""); Vector.fs := w |} in
  let none := {| Vector.self := Shapes.set_line v PyNone; Vector.fs := w |} in
  (fst (Vector.write fiona msg empty) = fst (Vector.write fiona msg none) /\
   Vector.fs (snd (Vector.write fiona msg empty)) =
     Vector.fs (snd (Vector.write fiona msg none)) /\
   Vector.self (snd (Vector.write fiona msg empty)) = Vector.self empty) /\
  (fst (Vector.close fiona empty) = fst (Vector.close fiona none) /\
   Vector.fs (snd (Vector.close fiona empty)) =
     Vector.fs (snd (Vector.close fiona none)) /\
   Fiona.calls (Vector.fs (snd (Vector.close fiona empty))) =
     Fiona.calls w ++ [Fiona.Close (Fiona.handle (Vector.stream v))]).
Proof.
  intros empty none. split.
  - destruct (is_not_none (Vector.msg_get msg "lon") &&
              is_not_none (Vector.msg_get msg "lat")) eqn:Hpos.
    + rewrite (write_forwarded fiona msg empty Hpos),
        (write_forwarded fiona msg none Hpos). cbv zeta.
      unfold Vector.point_feature. cbn [Vector.self Vector.fs empty none
        Shapes.set_line Vector.stream Vector._line truthy String.eqb negb].
      destruct (fiona w _); repeat split; reflexivity.
    + rewrite (write_skipped fiona msg empty Hpos),
        (write_skipped fiona msg none Hpos).
      repeat split; reflexivity.
  - rewrite (close_untracked fiona empty eq_refl),
      (close_untracked fiona none eq_refl). cbv zeta.
    cbn [Vector.self Vector.fs empty none Shapes.set_line Vector.stream].
    destruct (fiona w _); cbn [fst snd Vector.fs]; unfold Fiona.calls;
      rewrite map_app; repeat split; reflexivity.
Qed.

(** * Further properties of the driver *)

(** ** The constructor's checks, in their order *)

Section Checks.

Import OrderedDict Vector Shapes.

Lemma split1_with (sep : ascii) (s : string) :
  contains sep s = true -> exists a b, split1 sep s = [a; b].
Proof.
  induction s as [|c s IH]; simpl; [discriminate|].
  destruct (Ascii.eqb c sep); simpl; [eauto|].
  intros Hs. destruct (IH Hs) as (a & b & ->). eauto.
Qed.

Lemma add_definitions_outcome (toks : list string) (d : odict) :
  match add_definitions d (map PyStr toks) with
  | Ok _ => Forall (fun t => contains ":" t = true) toks
  | Raise e => e = ValueError /\ Exists (fun t => contains ":" t = false) toks
  end.
Proof.
  revert d. induction toks as [|t toks IH]; intros d; cbn [map add_definitions].
  - constructor.
  - unfold add_definition. destruct (contains ":" t) eqn:Ht.
    + destruct (split1_with _ _ Ht) as (a & b & ->).
      specialize (IH (setitem d a (PyStr b))).
      destruct (add_definitions _ _).
      * constructor; assumption.
      * destruct IH as [-> Hex]. split; [reflexivity|]. right. exact Hex.
    + rewrite (split1_without _ _ Ht). split; [reflexivity|]. left. exact Ht.
Qed.


Lemma add_definitions_non_string (toks : list string) (x : pyval)
    (rest : list pyval) (d : odict) :
  Forall (fun t => contains ":" t = true) toks ->
  is_string x = false ->
  add_definitions d (map PyStr toks ++ x :: rest) = Raise AttributeError.
Proof.
  intros Hall Hx. revert d.
  induction Hall as [|t toks Ht Hall IH]; intros d; cbn [map app add_definitions].
  - destruct x; try reflexivity. discriminate Hx.
  - unfold add_definition. destruct (split1_with _ _ Ht) as (a & b & ->).
    apply IH.
Qed.

End Checks.

(** X1. A first argument that is not a string ends the constructor with
    [TypeError] at line 84, before the field-spec is looked at and before
    Fiona is called, whatever the other options are. *)
Theorem file_argument_checked_first
    (fiona : Fiona.oracle) (f : pyval) (o : Vector.options) (w : Fiona.world) :
  is_string f = false ->
  Vector.__init__ fiona f o w = (Raise TypeError, w).
Proof.
  intros Hf. unfold Vector.__init__. rewrite Hf. reflexivity.
Qed.

Lemma file_argument_checked_first_witness :
  Vector.__init__ Shapes.accepts_all (PyList [PyStr "out.shp"])
    (Shapes.with_fields Vector.defaults (PyStr "heading")) [] =
  (Raise TypeError, []).
Proof.
  apply (file_argument_checked_first Shapes.accepts_all (PyList [PyStr "out.shp"])
           (Shapes.with_fields Vector.defaults (PyStr "heading")) []).
  reflexivity.
Defined.

(** X2. A string given as [fields] resolves exactly when each of its
    comma-separated pieces has a colon; otherwise the exception is
    [ValueError] and no other.  So a trailing comma, a doubled comma and
    the empty string are all rejected. *)
Theorem string_spec_outcome (s : string) :
  match Vector.resolve_properties (PyStr s) with
  | Ok _ => Forall (fun t => contains ":" t = true) (split "," s)
  | Raise e =>
      e = ValueError /\ Exists (fun t => contains ":" t = false) (split "," s)
  end.
Proof.
  apply (add_definitions_outcome (split "," s) Vector.default_fields).
Qed.

(** X3. Whatever the field-spec, a schema that resolves has no name twice
    and starts with the five default names in their order: an override
    changes a default's definition or adds a field after the defaults, it
    never removes or moves one. *)
Theorem defaults_stay_in_front (fields : pyval) (schema : odict) :
  Vector.resolve_properties fields = Ok schema ->
  NoDup (OrderedDict.keys schema) /\
  exists added : list string,
    OrderedDict.keys schema =
    ["mmsi"; "timestamp"; "course"; "speed"; "heading"] ++ added.
Proof.
  intros Hres. split; [exact (resolve_properties_NoDup _ _ Hres)|].
  change ["mmsi"; "timestamp"; "course"; "speed"; "heading"]
    with (OrderedDict.keys Vector.default_fields).
  assert (Hset : forall (d : odict) k v, exists added,
             OrderedDict.keys (OrderedDict.setitem d k v) =
             OrderedDict.keys d ++ added).
  { intros d k v. destruct (decide (k ∈ OrderedDict.keys d)) as [Hin|Hnin].
    - exists []. rewrite (keys_setitem_old _ _ _ Hin), app_nil_r. reflexivity.
    - exists [k]. apply keys_setitem_new, Hnin. }
  assert (Hupd : forall kw (d : odict), exists added,
             OrderedDict.keys (OrderedDict.update d kw) =
             OrderedDict.keys d ++ added).
  { induction kw as [|[k v] kw IH]; intros d.
    - exists []. rewrite app_nil_r. reflexivity.
    - destruct (IH (OrderedDict.setitem d k v)) as [a2 H2].
      destruct (Hset d k v) as [a1 H1].
      exists (a1 ++ a2).
      change (OrderedDict.update d ((k, v) :: kw))
        with (OrderedDict.update (OrderedDict.setitem d k v) kw).
      rewrite H2, H1, app_assoc. reflexivity. }
  assert (Hadd : forall l (d s : odict),
             Vector.add_definitions d l = Ok s ->
             exists added, OrderedDict.keys s = OrderedDict.keys d ++ added).
  { induction l as [|x l IH]; intros d s; simpl.
    - intros [= <-]. exists []. rewrite app_nil_r. reflexivity.
    - destruct (Vector.add_definition d x) as [d'|e] eqn:Hx; [|discriminate].
      intros Hs. destruct (IH _ _ Hs) as [a2 H2].
      unfold Vector.add_definition in Hx. destruct x; try discriminate.
      destruct (split1 ":" s0) as [|a [|b [|c r]]]; try discriminate.
      injection Hx as <-. destruct (Hset d a (PyStr b)) as [a1 H1].
      exists (a1 ++ a2). rewrite H2, H1, app_assoc. reflexivity. }
  unfold Vector.resolve_properties in Hres.
  destruct fields;
    try (injection Hres as <-; exists []; rewrite app_nil_r; reflexivity);
    try (apply (Hadd _ _ _ Hres)).
  destruct (Vector.keywords d) as [kw|e]; [|discriminate].
  injection Hres as <-. apply Hupd.
Qed.

Lemma defaults_stay_in_front_witness :
  NoDup (OrderedDict.keys
           [ ("mmsi", PyStr "str:9"); ("timestamp", PyStr "str:40");
             ("course", PyStr "float:12.1"); ("speed", PyStr "float:10.1");
             ("heading", PyStr "int:7"); ("flag", PyStr "str:2") ]) /\
  exists added : list string,
    OrderedDict.keys
      [ ("mmsi", PyStr "str:9"); ("timestamp", PyStr "str:40");
        ("course", PyStr "float:12.1"); ("speed", PyStr "float:10.1");
        ("heading", PyStr "int:7"); ("flag", PyStr "str:2") ] =
    ["mmsi"; "timestamp"; "course"; "speed"; "heading"] ++ added.
Proof.
  apply (defaults_stay_in_front (PyStr "flag:str:2,mmsi:str:9")).
  reflexivity.
Defined.



(** X5. In a list or tuple given as [fields], an element that is not a
    string, coming after tokens that all have their colon, has no [split]:
    the constructor raises [AttributeError] at line 93, with no call made
    to Fiona, whatever follows the element. *)
Theorem sequence_element_must_be_string
    (fiona : Fiona.oracle) (path : string) (o : Vector.options)
    (toks : list string) (x : pyval) (rest : list pyval) (w : Fiona.world) :
  Vector.fields o = PyList (map PyStr toks ++ x :: rest) \/
  Vector.fields o = PyTuple (map PyStr toks ++ x :: rest) ->
  Forall (fun t => contains ":" t = true) toks ->
  is_string x = false ->
  Vector.__init__ fiona (PyStr path) o w = (Raise AttributeError, w).
Proof.
  intros Hshape Hall Hx. apply init_unresolved.
  destruct Hshape as [-> | ->];
    apply (add_definitions_non_string _ _ _ _ Hall Hx).
Qed.

Lemma sequence_element_must_be_string_witness :
  Vector.__init__ Shapes.accepts_all (PyStr "out.shp")
    (Shapes.with_fields Vector.defaults
       (PyTuple [PyStr "flag:str:2"; PyNone; PyStr "heading"])) [] =
  (Raise AttributeError, []).
Proof.
  apply (sequence_element_must_be_string Shapes.accepts_all "out.shp"
           (Shapes.with_fields Vector.defaults
              (PyTuple [PyStr "flag:str:2"; PyNone; PyStr "heading"]))
           ["flag:str:2"] PyNone [PyStr "heading"] []).
  - right. reflexivity.
  - repeat constructor.
  - reflexivity.
Defined.

(** ** Overrides that repeat or reorder names *)

Section Overrides.

Import OrderedDict.

Lemma get_absent (d : odict) k : k ∉ keys d -> get d k = None.
Proof.
  induction d as [|[k' v'] d IH]; simpl; [reflexivity|].
  intros H. apply not_elem_of_cons in H as [Hne H].
  destruct (String.eqb_spec k' k); [congruence|apply IH, H].
Qed.

Lemma get_app (d1 d2 : odict) k :
  get (d1 ++ d2) k =
  match get d1 k with Some v => Some v | None => get d2 k end.
Proof.
  induction d1 as [|[k' v'] d1 IH]; simpl; [reflexivity|].
  destruct (String.eqb k' k); [reflexivity|exact IH].
Qed.

(** A lookup after an update: the last item of that name, or the old value. *)
Lemma get_update_last (kw : list (string * pyval)) (d : odict) k :
  get (update d kw) k =
  match get (rev kw) k with Some v => Some v | None => get d k end.
Proof.
  revert d. induction kw as [|[k' v'] kw IH]; intros d; [reflexivity|].
  change (update d ((k', v') :: kw)) with (update (setitem d k' v') kw).
  rewrite IH. simpl rev. rewrite get_app.
  destruct (get (rev kw) k); [reflexivity|]. simpl.
  destruct (String.eqb_spec k' k) as [->|Hne].
  - apply get_setitem_same.
  - apply get_setitem_other, Hne.
Qed.

(** Two dictionaries with the same keys in the same order, none twice, and
    the same value at each key are the same. *)
Lemma odict_ext (d1 d2 : odict) :
  keys d1 = keys d2 -> NoDup (keys d1) ->
  (forall k, get d1 k = get d2 k) -> d1 = d2.
Proof.
  revert d2. induction d1 as [|[k1 v1] d1 IH]; intros [|[k2 v2] d2] Hk Hnd Hget;
    try discriminate; [reflexivity|].
  simpl in Hk. injection Hk as <- Hk.
  simpl in Hnd. apply NoDup_cons in Hnd as [Hk1 Hnd].
  pose proof (Hget k1) as H1. simpl in H1. rewrite String.eqb_refl in H1.
  injection H1 as <-. f_equal. apply IH; [exact Hk|exact Hnd|].
  intros k. destruct (decide (k1 = k)) as [<-|Hne].
  - rewrite !get_absent; [reflexivity|rewrite <- Hk; exact Hk1|exact Hk1].
  - specialize (Hget k). simpl in Hget.
    destruct (String.eqb_spec k1 k); [contradiction|exact Hget].
Qed.

End Overrides.

(** X6. In a list of tokens a name may come more than once: the schema
    gives each name the definition of its last token, a definition being
    everything after the first colon of the token, and any other name the
    default it had. *)
Theorem last_token_of_a_name_wins (ovs : list (string * string)) :
  Forall (fun kv => contains ":" (fst kv) = false) ovs ->
  exists schema : odict,
    Vector.resolve_properties (Shapes.as_list ovs) = Ok schema /\
    forall k,
      OrderedDict.get schema k =
      match Scenes.last_definition ovs k with
      | Some v => Some v
      | None => OrderedDict.get Vector.default_fields k
      end.
Proof.
  intros Hcolon.
  exists (OrderedDict.update Vector.default_fields (Scenes.items_of ovs)).
  split.
  - apply add_definitions_tokens, Hcolon.
  - intros k. apply get_update_last.
Qed.

Lemma last_token_of_a_name_wins_witness :
  Scenes.last_definition [("flag", "str:1"); ("flag", "int:2:x")] "flag" =
    Some (PyStr "int:2:x") /\
  exists schema : odict,
    Vector.resolve_properties
      (PyList [PyStr "flag:str:1"; PyStr "flag:int:2:x"]) = Ok schema /\
    forall k,
      OrderedDict.get schema k =
      match Scenes.last_definition [("flag", "str:1"); ("flag", "int:2:x")] k with
      | Some v => Some v
      | None => OrderedDict.get Vector.default_fields k
      end.
Proof.
  split; [reflexivity|].
  apply (last_token_of_a_name_wins [("flag", "str:1"); ("flag", "int:2:x")]).
  repeat constructor.
Defined.

(** X7. A mapping that only overrides default fields resolves to the same
    schema in whatever order its items come: the order of a mapping only
    matters for the names the defaults do not have. *)
Theorem order_of_default_overrides_irrelevant (items1 items2 : list (string * pyval)) :
  NoDup (map fst items1) ->
  items1 ≡ₚ items2 ->
  Forall (fun kv => fst kv ∈ OrderedDict.keys Vector.default_fields) items1 ->
  Vector.resolve_properties (Shapes.mapping items1) =
  Vector.resolve_properties (Shapes.mapping items2).
Proof.
  intros Hnd1 Hperm Hdef.
  assert (Hkeys : map fst items1 ≡ₚ map fst items2)
    by apply Permutation_map, Hperm.
  assert (Hnd2 : NoDup (map fst items2)) by (rewrite <- Hkeys; exact Hnd1).
  assert (Hdef2 : Forall (fun kv => fst kv ∈ OrderedDict.keys Vector.default_fields) items2).
  { rewrite <- Hperm. exact Hdef. }
  assert (Hnew : forall items : list (string * pyval),
            Forall (fun kv => fst kv ∈ OrderedDict.keys Vector.default_fields) items ->
            filter (fun k => k ∉ OrderedDict.keys Vector.default_fields)
              (map fst items) = []).
  { intros items Hall. induction Hall as [|kv items Hkv Hall IH]; [reflexivity|].
    simpl. rewrite filter_cons_False; [exact IH|]. intros H. apply H, Hkv. }
  unfold Vector.resolve_properties, Shapes.mapping.
  rewrite !keywords_mapping. f_equal. apply odict_ext.
  - rewrite (keys_update _ _ Hnd1), (keys_update _ _ Hnd2).
    rewrite (Hnew _ Hdef), (Hnew _ Hdef2). reflexivity.
  - apply keys_update_NoDup.
    apply (bool_decide_unpack (NoDup (OrderedDict.keys Vector.default_fields))).
    vm_compute. exact I.
  - intros k. destruct (decide (k ∈ map fst items1)) as [Hin|Hnin].
    + apply list_elem_of_fmap in Hin as [[k' v] [-> Hin]]. cbn [fst].
      rewrite (get_update_item _ _ _ _ Hnd1 Hin).
      rewrite Hperm in Hin.
      rewrite (get_update_item _ _ _ _ Hnd2 Hin). reflexivity.
    + rewrite (get_update_other _ _ _ Hnin).
      rewrite get_update_other; [reflexivity|].
      rewrite <- Hkeys. exact Hnin.
Qed.

Lemma order_of_default_overrides_irrelevant_witness :
  Vector.resolve_properties
    (Shapes.mapping [("heading", PyStr "int:3"); ("mmsi", PyStr "str:9")]) =
  Vector.resolve_properties
    (Shapes.mapping [("mmsi", PyStr "str:9"); ("heading", PyStr "int:3")]).
Proof.
  apply (order_of_default_overrides_irrelevant
           [("heading", PyStr "int:3"); ("mmsi", PyStr "str:9")]
           [("mmsi", PyStr "str:9"); ("heading", PyStr "int:3")]).
  - apply (bool_decide_unpack (NoDup _)). vm_compute. exact I.
  - apply perm_swap.
  - apply (bool_decide_unpack (Forall _ _)). vm_compute. exact I.
Defined.

(** X8. The constructor returns a driver exactly when its first argument
    is a string, the field-spec resolves and Fiona accepts the [open] of
    the point stream with the resolved schema, geometry [Point] and the
    [mode], [crs] and [driver] it was given. *)
Theorem constructor_returns_iff
    (fiona : Fiona.oracle) (f : pyval) (o : Vector.options) (w : Fiona.world) :
  (exists v w', Vector.__init__ fiona f o w = (Ok v, w')) <->
  (is_string f = true /\
   exists schema : odict,
     Vector.resolve_properties (Vector.fields o) = Ok schema /\
     fiona w (Fiona.Open f (Vector.mode o) (Shapes.point_meta o schema)) = None).
Proof.
  split.
  - intros (v & w' & Hinit). destruct f; try discriminate Hinit.
    split; [reflexivity|].
    destruct (Vector.resolve_properties (Vector.fields o)) as [schema|e] eqn:Hres.
    + exists schema. split; [reflexivity|].
      rewrite (init_resolved fiona s o w schema Hres) in Hinit. cbv zeta in Hinit.
      destruct (fiona w _); [discriminate Hinit|reflexivity].
    + rewrite (init_unresolved fiona s o w e Hres) in Hinit. discriminate Hinit.
  - intros (Hf & schema & Hres & Hopen). destruct f; try discriminate Hf.
    rewrite (init_resolved fiona s o w schema Hres). cbv zeta. rewrite Hopen.
    eauto.
Qed.

(** X9. When Fiona refuses the [open] of the point stream, the constructor
    ends with Fiona's exception as it is, that [open] being the only call
    made: no driver, and no line file either, whatever [line] is. *)
Theorem refused_open_propagates
    (fiona : Fiona.oracle) (path : string) (o : Vector.options)
    (schema : odict) (e : exn) (w : Fiona.world) :
  Vector.resolve_properties (Vector.fields o) = Ok schema ->
  fiona w (Fiona.Open (PyStr path) (Vector.mode o) (Shapes.point_meta o schema)) =
    Some e ->
  Vector.__init__ fiona (PyStr path) o w =
  (Raise e,
   w ++ [{| Fiona.called :=
              Fiona.Open (PyStr path) (Vector.mode o) (Shapes.point_meta o schema);
            Fiona.raised := Some e |}]).
Proof.
  intros Hres Hopen. rewrite (init_resolved fiona path o w schema Hres).
  cbv zeta. rewrite Hopen. reflexivity.
Qed.

Lemma refused_open_propagates_witness :
  Vector.__init__ Scenes.rejects_open (PyStr "out.shp")
    (Shapes.with_line Vector.defaults (PyStr "track.shp")) [] =
  (Raise (FionaError "unsupported driver"),
   [] ++ [{| Fiona.called :=
               Fiona.Open (PyStr "out.shp") (PyStr "w")
                 (Shapes.point_meta Vector.defaults Vector.default_fields);
             Fiona.raised := Some (FionaError "unsupported driver") |}]).
Proof.
  apply (refused_open_propagates Scenes.rejects_open "out.shp"
           (Shapes.with_line Vector.defaults (PyStr "track.shp"))
           Vector.default_fields (FionaError "unsupported driver") []);
    reflexivity.
Defined.

(** ** What a write touches *)

Section Frames.

Import Vector Shapes Scenes.

Variable fiona : Fiona.oracle.

Lemma records_app (w1 w2 : Fiona.world) (h : nat) :
  Fiona.records (w1 ++ w2) h = Fiona.records w1 h ++ Fiona.records w2 h.
Proof.
  induction w1 as [|[c r] w1 IH]; [reflexivity|].
  destruct c as [p m mt|h' ft|h']; destruct r as [e|]; simpl; try exact IH.
  destruct (Nat.eqb h' h); [simpl; f_equal|]; exact IH.
Qed.

(** One [write] that returned: the stream, [_line] and the line meta are
    the ones of before, the accumulator has the position when [_line] is
    truthy, and the stream has the point when the message has a position. *)
Lemma write_returned (msg : gmap string pyval) (st st1 : store) :
  write fiona msg st = (Ok tt, st1) ->
  stream (self st1) = stream (self st) /\
  _line (self st1) = _line (self st) /\
  _line_meta (self st1) = _line_meta (self st) /\
  _line_coords (self st1) =
    _line_coords (self st) ++
      (if truthy (_line (self st)) then [position msg] else []) /\
  Fiona.records (fs st1) (Fiona.handle (stream (self st))) =
    Fiona.records (fs st) (Fiona.handle (stream (self st))) ++
      (if has_position msg
       then [point_feature (self st) msg (msg_get msg "lon") (msg_get msg "lat")]
       else []).
Proof.
  unfold has_position, position.
  destruct (is_not_none (msg_get msg "lon") && is_not_none (msg_get msg "lat"))
    eqn:Hpos.
  - rewrite (write_forwarded fiona msg st Hpos). cbv zeta.
    destruct (fiona (fs st) _); [discriminate|].
    intros [= <-]. cbn [self fs]. rewrite records_app. simpl Fiona.records at 2.
    rewrite Nat.eqb_refl.
    destruct (truthy (_line (self st))); cbn; rewrite ?app_nil_r; auto.
  - rewrite (write_skipped fiona msg st Hpos).
    intros [= <-]. cbn [self fs].
    destruct (truthy (_line (self st))); cbn; rewrite ?app_nil_r; auto.
Qed.

Lemma write_all_returned (msgs : list (gmap string pyval)) (st st' : store) :
  write_all fiona msgs st = (Ok tt, st') ->
  stream (self st') = stream (self st) /\
  _line (self st') = _line (self st) /\
  _line_meta (self st') = _line_meta (self st) /\
  _line_coords (self st') =
    _line_coords (self st) ++
      (if truthy (_line (self st)) then map position msgs else []) /\
  Fiona.records (fs st') (Fiona.handle (stream (self st))) =
    Fiona.records (fs st) (Fiona.handle (stream (self st))) ++
      map (fun msg =>
             point_feature (self st) msg (msg_get msg "lon") (msg_get msg "lat"))
        (List.filter has_position msgs).
Proof.
  revert st. induction msgs as [|msg msgs IH]; intros st; simpl.
  - intros [= <-]. rewrite !app_nil_r.
    destruct (truthy (_line (self st))); rewrite ?app_nil_r; auto.
  - unfold bind.
    destruct (write fiona msg st) as [[[]|e] st1] eqn:Hw; [|discriminate].
    intros Hrest.
    destruct (write_returned _ _ _ Hw) as (Hs1 & Hl1 & Hm1 & Hc1 & Hr1).
    destruct (IH _ Hrest) as (Hs & Hl & Hm & Hc & Hr).
    assert (Hft : forall m x y, point_feature (self st1) m x y =
                                point_feature (self st) m x y).
    { intros m x y. unfold point_feature. rewrite Hs1. reflexivity. }
    rewrite Hs1 in Hr. rewrite Hl1 in Hc.
    repeat split; try congruence.
    + rewrite Hc, Hc1, <- app_assoc.
      destruct (truthy (_line (self st))); reflexivity.
    + rewrite Hr, Hr1, <- app_assoc. f_equal.
      rewrite (map_ext _ _ (fun m => Hft m (msg_get m "lon") (msg_get m "lat"))).
      destruct (has_position msg); reflexivity.
Qed.

End Frames.

(** X10. A [write] leaves the stream, [_line] and the line meta of the
    driver as they were, and makes at most one call to Fiona, a [write] on
    the driver's own stream: it never opens or closes anything.  When it
    raises, the whole object, accumulator included, is as before. *)
Theorem write_touches_accumulator_only
    (fiona : Fiona.oracle) (msg : gmap string pyval) (st : Vector.store) :
  Vector.stream (Vector.self (snd (Vector.write fiona msg st))) =
    Vector.stream (Vector.self st) /\
  Vector._line (Vector.self (snd (Vector.write fiona msg st))) =
    Vector._line (Vector.self st) /\
  Vector._line_meta (Vector.self (snd (Vector.write fiona msg st))) =
    Vector._line_meta (Vector.self st) /\
  (forall e, fst (Vector.write fiona msg st) = Raise e ->
     Vector.self (snd (Vector.write fiona msg st)) = Vector.self st) /\
  (Vector.fs (snd (Vector.write fiona msg st)) = Vector.fs st \/
   exists ft out,
     Vector.fs (snd (Vector.write fiona msg st)) =
     Vector.fs st ++
       [{| Fiona.called :=
             Fiona.Write (Fiona.handle (Vector.stream (Vector.self st))) ft;
           Fiona.raised := out |}]).
Proof.
  destruct (is_not_none (Vector.msg_get msg "lon") &&
            is_not_none (Vector.msg_get msg "lat")) eqn:Hpos.
  - rewrite (write_forwarded fiona msg st Hpos). cbv zeta.
    destruct (fiona (Vector.fs st) _) as [e|] eqn:Hout;
      cbn [fst snd Vector.self Vector.fs];
      destruct (truthy (Vector._line (Vector.self st)));
      repeat split; try reflexivity; try discriminate; right; eauto.
  - rewrite (write_skipped fiona msg st Hpos). cbn [fst snd Vector.self Vector.fs].
    destruct (truthy (Vector._line (Vector.self st)));
      repeat split; try reflexivity; try discriminate; left; reflexivity.
Qed.

(** X11. After a run of writes that all returned, the accumulator has
    gained the position of every message, in the order written, when
    [_line] is truthy, and nothing otherwise: one vertex per message, with
    or without coordinates. *)
Theorem vertex_per_message
    (fiona : Fiona.oracle) (msgs : list (gmap string pyval)) (st st' : Vector.store) :
  Vector.write_all fiona msgs st = (Ok tt, st') ->
  Vector._line_coords (Vector.self st') =
  Vector._line_coords (Vector.self st) ++
    (if truthy (Vector._line (Vector.self st))
     then map Scenes.position msgs else []).
Proof.
  intros Hrun.
  destruct (write_all_returned fiona msgs st st' Hrun) as (_ & _ & _ & Hc & _).
  exact Hc.
Qed.

Lemma vertex_per_message_witness :
  Vector.write_all Shapes.accepts_all
    [Shapes.latitude_only (PyFloat 2); Shapes.heading_message] Shapes.tracking =
  (Ok tt,
   snd (Vector.write_all Shapes.accepts_all
          [Shapes.latitude_only (PyFloat 2); Shapes.heading_message] Shapes.tracking)) /\
  Vector._line_coords
    (Vector.self
       (snd (Vector.write_all Shapes.accepts_all
               [Shapes.latitude_only (PyFloat 2); Shapes.heading_message]
               Shapes.tracking))) =
  [] ++ [(PyNone, PyFloat 2); (PyFloat 1, PyFloat 2)].
Proof.
  split; [reflexivity|].
  exact (vertex_per_message Shapes.accepts_all
           [Shapes.latitude_only (PyFloat 2); Shapes.heading_message]
           Shapes.tracking _ eq_refl).
Defined.

(** X12. After a run of writes that all returned, the point stream has
    gained one feature for each message with both coordinates, in the order
    written, and none for the others: the points written can be fewer than
    the vertices of the line. *)
Theorem point_per_positioned_message
    (fiona : Fiona.oracle) (msgs : list (gmap string pyval)) (st st' : Vector.store) :
  Vector.write_all fiona msgs st = (Ok tt, st') ->
  Fiona.records (Vector.fs st') (Fiona.handle (Vector.stream (Vector.self st))) =
  Fiona.records (Vector.fs st) (Fiona.handle (Vector.stream (Vector.self st))) ++
    map (fun msg =>
           Vector.point_feature (Vector.self st) msg
             (Vector.msg_get msg "lon") (Vector.msg_get msg "lat"))
      (List.filter Scenes.has_position msgs).
Proof.
  intros Hrun.
  destruct (write_all_returned fiona msgs st st' Hrun) as (_ & _ & _ & _ & Hr).
  exact Hr.
Qed.

Lemma point_per_positioned_message_witness :
  Fiona.records
    (Vector.fs
       (snd (Vector.write_all Shapes.accepts_all
               [Shapes.latitude_only (PyFloat 2); Shapes.heading_message]
               Shapes.tracking))) 0 =
  [] ++
    [ {| Fiona.type := "Feature";
         Fiona.geom := Fiona.Point (PyFloat 1) (PyFloat 2);
         Fiona.properties :=
           [ ("mmsi", PyNone); ("timestamp", PyNone); ("course", PyNone);
             ("speed", PyNone); ("heading", PyInt 90) ] |} ].
Proof.
  exact (point_per_positioned_message Shapes.accepts_all
           [Shapes.latitude_only (PyFloat 2); Shapes.heading_message]
           Shapes.tracking _ eq_refl).
Defined.

(** ** Closing more than once *)

Section Reclosing.

Import Vector Shapes.

Variable fiona : Fiona.oracle.

(** [close] changes the accumulator and nothing else of the object, and
    only when it returns. *)
Lemma close_object (st : store) :
  match close fiona st with
  | (Ok _, st') => self st' = with_line_coords (self st) []
  | (Raise _, st') => self st' = self st
  end.
Proof.
  destruct st as [v w]. unfold close. run_exec. cbn [self fs].
  destruct (fiona w _); [reflexivity|].
  destruct (truthy (_line v)); [|reflexivity].
  run_exec. cbn [self fs].
  repeat (match goal with
          | |- context [fiona ?a ?b] => destruct (fiona a b)
          end; run_exec; cbn [self fs]); reflexivity.
Qed.

(** The calls of a [close] with a truthy [_line], call by call. *)
Lemma close_tracked_calls (v : vector) (w : Fiona.world) :
  truthy (_line v) = true ->
  Fiona.calls (fs (snd (close fiona {| self := v; fs := w |}))) =
  Fiona.calls w ++
    Fiona.Close (Fiona.handle (stream v)) ::
    match fiona w (Fiona.Close (Fiona.handle (stream v))) with
    | Some _ => []
    | None =>
        Fiona.Open (_line v) (PyStr "w") (_line_meta v) ::
        match
          fiona (w ++ [{| Fiona.called := Fiona.Close (Fiona.handle (stream v));
                          Fiona.raised := None |}])
            (Fiona.Open (_line v) (PyStr "w") (_line_meta v))
        with
        | Some _ => []
        | None => [Fiona.Write (S (length w)) (line_feature v);
                   Fiona.Close (S (length w))]
        end
    end.
Proof.
  intros Hline. unfold close. run_exec. cbn [self fs].
  destruct (fiona w _); cbn [snd fs].
  { unfold Fiona.calls. rewrite map_app. reflexivity. }
  rewrite Hline. run_exec. cbn [self fs Fiona.handle].
  replace (length (w ++ [{| Fiona.called := Fiona.Close (Fiona.handle (stream v));
                            Fiona.raised := None |}])) with (S (length w))
    by (rewrite length_app; simpl; lia).
  repeat (match goal with
          | |- context [match fiona ?a ?b with _ => _ end] => destruct (fiona a b)
          end; run_exec; cbn [snd self fs]);
    unfold Fiona.calls; rewrite ?map_app, <- ?app_assoc; reflexivity.
Qed.

End Reclosing.

(** X13. [close] does not remember that it ran.  Called again on a driver
    with a truthy [_line] after a [close] that returned, it closes the point
    stream once more and, as far as Fiona lets it, opens the line
    destination in mode ['w'] again and writes it a line without any
    coordinate: the line written by the first [close] is replaced by an
    empty one. *)
Theorem second_close_rewrites_line
    (fiona : Fiona.oracle) (st st1 : Vector.store) :
  truthy (Vector._line (Vector.self st)) = true ->
  Vector.close fiona st = (Ok tt, st1) ->
  let v := Vector.self st in
  let w1 := Vector.fs st1 in
  let closes := Fiona.Close (Fiona.handle (Vector.stream v)) in
  let opens := Fiona.Open (Vector._line v) (PyStr "w") (Vector._line_meta v) in
  let dst := S (length w1) in
  let ft :=
    {| Fiona.type := "Feature";
       Fiona.properties := [];
       Fiona.geom := Fiona.LineString [] |} in
  Fiona.calls (Vector.fs (snd (Vector.close fiona st1))) =
    Fiona.calls w1 ++
      closes ::
      match fiona w1 closes with
      | Some _ => []
      | None =>
          opens ::
          match fiona (w1 ++ [{| Fiona.called := closes; Fiona.raised := None |}]) opens with
          | Some _ => []
          | None => [Fiona.Write dst ft; Fiona.Close dst]
          end
      end.
Proof.
  intros Hline Hclose. cbv zeta.
  pose proof (close_object fiona st) as Hobj. rewrite Hclose in Hobj.
  destruct st1 as [v1 w1]. cbn [Vector.self Vector.fs] in *. subst v1.
  apply (close_tracked_calls fiona (Vector.with_line_coords (Vector.self st) []) w1).
  exact Hline.
Qed.

Lemma second_close_rewrites_line_witness :
  truthy (Vector._line (Vector.self Shapes.three_points)) = true /\
  Fiona.calls
    (Vector.fs
       (snd (Vector.close Shapes.accepts_all
               (snd (Vector.close Shapes.accepts_all Shapes.three_points))))) =
  Fiona.calls (Vector.fs (snd (Vector.close Shapes.accepts_all Shapes.three_points))) ++
    [ Fiona.Close 0;
      Fiona.Open (PyStr "track.shp") (PyStr "w")
        (Vector._line_meta (Vector.self Shapes.three_points));
      Fiona.Write 9
        {| Fiona.type := "Feature";
           Fiona.properties := [];
           Fiona.geom := Fiona.LineString [] |};
      Fiona.Close 9 ].
Proof.
  split; [reflexivity|].
  exact (second_close_rewrites_line Shapes.accepts_all Shapes.three_points
           (snd (Vector.close Shapes.accepts_all Shapes.three_points))
           eq_refl eq_refl).
Defined.

(** X14. Line-tracking is decided by the truth value of [_line], whatever
    its type: with [None], [""], [0], [False] or an empty list or dict,
    a [write] that returns leaves the accumulator as it was, and [close]
    makes one call, the close of the point stream, and opens no line
    file. *)
Theorem falsy_line_disables_tracking
    (fiona : Fiona.oracle) (msg : gmap string pyval) (st : Vector.store) :
  truthy (Vector._line (Vector.self st)) = false ->
  Vector._line_coords (Vector.self (snd (Vector.write fiona msg st))) =
    Vector._line_coords (Vector.self st) /\
  Fiona.calls (Vector.fs (snd (Vector.close fiona st))) =
    Fiona.calls (Vector.fs st) ++
      [Fiona.Close (Fiona.handle (Vector.stream (Vector.self st)))].
Proof.
  intros Hline. split.
  - destruct (is_not_none (Vector.msg_get msg "lon") &&
              is_not_none (Vector.msg_get msg "lat")) eqn:Hpos.
    + rewrite (write_forwarded fiona msg st Hpos). cbv zeta. rewrite Hline.
      destruct (fiona (Vector.fs st) _); reflexivity.
    + rewrite (write_skipped fiona msg st Hpos). rewrite Hline. reflexivity.
  - rewrite (close_untracked fiona st Hline). cbv zeta.
    destruct (fiona (Vector.fs st) _); cbn [snd Vector.fs]; unfold Fiona.calls;
      rewrite map_app; reflexivity.
Qed.

Lemma falsy_line_disables_tracking_witness :
  truthy (PyInt 0) = false /\
  Vector._line_coords
    (Vector.self
       (snd (Vector.write Shapes.accepts_all Shapes.heading_message
               {| Vector.self := Shapes.set_line (Vector.self Shapes.tracking) (PyInt 0);
                  Vector.fs := Vector.fs Shapes.tracking |}))) = [] /\
  Fiona.calls
    (Vector.fs
       (snd (Vector.close Shapes.accepts_all
               {| Vector.self := Shapes.set_line (Vector.self Shapes.tracking) (PyInt 0);
                  Vector.fs := Vector.fs Shapes.tracking |}))) =
  Fiona.calls (Vector.fs Shapes.tracking) ++ [Fiona.Close 0].
Proof.
  split; [reflexivity|].
  exact (falsy_line_disables_tracking Shapes.accepts_all Shapes.heading_message
           {| Vector.self := Shapes.set_line (Vector.self Shapes.tracking) (PyInt 0);
              Vector.fs := Vector.fs Shapes.tracking |} eq_refl).
Defined.

(** X15. A driver made on a fresh log and written to, with nothing raised:
    its stream is the first collection opened, with the schema its
    field-spec resolved to, no name twice; [_line] is the [line] option
    as given; the line meta has the [crs] and [driver] of the options, no
    property and geometry [LineString]; and the accumulator holds the
    positions of all the messages when [line] is truthy, and is empty
    otherwise. *)
Theorem session_state
    (fiona : Fiona.oracle) (path : string) (o : Vector.options)
    (msgs : list (gmap string pyval)) (st : Vector.store) :
  Shapes.session fiona path o msgs = Some st ->
  exists schema : odict,
    Vector.resolve_properties (Vector.fields o) = Ok schema /\
    NoDup (OrderedDict.keys schema) /\
    Vector.stream (Vector.self st) =
      {| Fiona.handle := 0; Fiona.col_meta := Shapes.point_meta o schema |} /\
    Vector._line (Vector.self st) = Vector.line o /\
    Vector._line_meta (Vector.self st) =
      {| Fiona.schema_properties := [];
         Fiona.schema_geometry := "LineString";
         Fiona.crs := Vector.crs o;
         Fiona.driver := Vector.driver o |} /\
    Vector._line_coords (Vector.self st) =
      if truthy (Vector.line o) then map Scenes.position msgs else [].
Proof.
  unfold Shapes.session. intros Hs.
  destruct (Vector.resolve_properties (Vector.fields o)) as [schema|e] eqn:Hres.
  - rewrite (init_resolved fiona path o [] schema Hres) in Hs. cbv zeta in Hs.
    destruct (fiona [] _); [discriminate|].
    destruct (Vector.write_all fiona msgs _) as [[[]|e] st'] eqn:Hrun;
      [|discriminate].
    injection Hs as <-.
    destruct (write_all_returned fiona msgs _ _ Hrun) as (Hst & Hl & Hm & Hc & _).
    cbn [Vector.self Vector.stream Vector._line Vector._line_meta
         Vector._line_coords] in Hst, Hl, Hm, Hc.
    exists schema. split; [reflexivity|].
    split; [exact (resolve_properties_NoDup _ _ Hres)|].
    repeat split; assumption.
  - rewrite (init_unresolved fiona path o [] e Hres) in Hs. discriminate.
Qed.

Lemma session_state_witness :
  exists schema : odict,
    Vector.resolve_properties
      (Vector.fields (Shapes.with_line Vector.defaults (PyStr "track.shp"))) =
      Ok schema /\
    NoDup (OrderedDict.keys schema) /\
    Vector.stream (Vector.self Shapes.three_points) =
      {| Fiona.handle := 0;
         Fiona.col_meta :=
           Shapes.point_meta (Shapes.with_line Vector.defaults (PyStr "track.shp"))
             schema |} /\
    Vector._line (Vector.self Shapes.three_points) =
      Vector.line (Shapes.with_line Vector.defaults (PyStr "track.shp")) /\
    Vector._line_meta (Vector.self Shapes.three_points) =
      {| Fiona.schema_properties := [];
         Fiona.schema_geometry := "LineString";
         Fiona.crs := Vector.crs (Shapes.with_line Vector.defaults (PyStr "track.shp"));
         Fiona.driver :=
           Vector.driver (Shapes.with_line Vector.defaults (PyStr "track.shp")) |} /\
    Vector._line_coords (Vector.self Shapes.three_points) =
      if truthy (Vector.line (Shapes.with_line Vector.defaults (PyStr "track.shp")))
      then map Scenes.position Shapes.diagonal else [].
Proof.
  apply (session_state Shapes.accepts_all "points.shp"
           (Shapes.with_line Vector.defaults (PyStr "track.shp"))
           Shapes.diagonal Shapes.three_points).
  reflexivity.
Defined.

(** X16. When the write of the line is refused, the line destination is
    closed all the same and [close] ends with an exception: the one of the
    write when that close goes through, the one of that close when it
    raises too.  The accumulator is not emptied. *)
Theorem refused_line_write_surfaces
    (fiona : Fiona.oracle) (st : Vector.store) (e : exn) :
  let v := Vector.self st in
  let w := Vector.fs st in
  let closes := Fiona.Close (Fiona.handle (Vector.stream v)) in
  let opens := Fiona.Open (Vector._line v) (PyStr "w") (Vector._line_meta v) in
  let w1 := w ++ [{| Fiona.called := closes; Fiona.raised := None |}] in
  let w2 := w1 ++ [{| Fiona.called := opens; Fiona.raised := None |}] in
  let writes := Fiona.Write (S (length w)) (Vector.line_feature v) in
  let w3 := w2 ++ [{| Fiona.called := writes; Fiona.raised := Some e |}] in
  truthy (Vector._line v) = true ->
  fiona w closes = None ->
  fiona w1 opens = None ->
  fiona w2 writes = Some e ->
  Vector.close fiona st =
  (Raise (default e (fiona w3 (Fiona.Close (S (length w))))),
   {| Vector.self := v;
      Vector.fs :=
        w3 ++ [{| Fiona.called := Fiona.Close (S (length w));
                  Fiona.raised := fiona w3 (Fiona.Close (S (length w))) |}] |}).
Proof.
  destruct st as [v w]. cbn [Vector.self Vector.fs]. cbv zeta.
  intros Hline Hc Ho Hw. unfold Vector.close. run_exec.
  cbn [Vector.self Vector.fs]. rewrite Hc, Hline. run_exec.
  cbn [Vector.self Vector.fs]. rewrite Ho. cbn [Fiona.handle].
  replace (length (w ++ [{| Fiona.called := Fiona.Close (Fiona.handle (Vector.stream v));
                            Fiona.raised := None |}])) with (S (length w))
    by (rewrite length_app; simpl; lia).
  rewrite Hw. run_exec.
  destruct (fiona _ (Fiona.Close (S (length w)))); reflexivity.
Qed.

Lemma refused_line_write_surfaces_witness :
  Vector.close Shapes.rejects_lines Shapes.one_point =
  (Raise (FionaError "record does not match the schema"),
   {| Vector.self := Vector.self Shapes.one_point;
      Vector.fs :=
        Vector.fs Shapes.one_point ++
          [ {| Fiona.called := Fiona.Close 0; Fiona.raised := None |};
            {| Fiona.called :=
                 Fiona.Open (PyStr "track.shp") (PyStr "w")
                   (Vector._line_meta (Vector.self Shapes.one_point));
               Fiona.raised := None |};
            {| Fiona.called :=
                 Fiona.Write 3 (Vector.line_feature (Vector.self Shapes.one_point));
               Fiona.raised := Some (FionaError "record does not match the schema") |};
            {| Fiona.called := Fiona.Close 3; Fiona.raised := None |} ] |}).
Proof.
  exact (refused_line_write_surfaces Shapes.rejects_lines Shapes.one_point
           (FionaError "record does not match the schema")
           eq_refl eq_refl eq_refl eq_refl).
Defined.
